(** * HealthBot: a shallow embedding of [app.py]

    The script has two functions, [get_fda_drug_info] (the drug lookup) and
    [get_ai_response] (prompt composition and the completion call), and three
    tab bodies that call them.  They are embedded here over

    - a type [value] of the Python objects the script handles (what
      [response.json()] can return, the dict the lookup builds, the API key);
    - an error monad [py] for the Python operations that can raise;
    - a small free monad [prog] whose nodes are the calls the script makes to
      the outside ([requests.get], the [ChatGroq] constructor, the chain's
      [invoke], the Streamlit widgets), run against a [world] that answers
      them and logged in a trace.

    A Python [str] is modelled as a Rocq [string], one [ascii] per character:
    the characters of the model are the code points 0..255. *)

From Stdlib Require Import ZArith List Bool Lia.
From Stdlib Require Import Strings.String Strings.Ascii Numbers.DecimalString.
Import ListNotations.

Open Scope string_scope.
Open Scope Z_scope.

Set Warnings "-register-all".

(* ------------------------------------------------------------------ *)
(** ** Python values *)

(** A [float] is carried by its [repr] (Python prints the shortest decimal
    string that reads back as the same float), which is all the script can
    observe of it.  A [dict] is the list of its items in insertion order; its
    keys are strings, as in every dict that comes from JSON or from the dict
    display of [get_fda_drug_info]. *)
Inductive value : Type :=
| VNone
| VBool (b : bool)
| VInt (n : Z)
| VFloat (repr : string)
| VStr (s : string)
| VList (items : list value)
| VDict (items : list (string * value)).

(** The exception classes the script can meet.  [OtherError] stands for any
    exception the outside world raises (connection errors, time-outs,
    validation errors of the completion client, ...). *)
Inductive exn : Type :=
| TypeError
| KeyError
| IndexError
| AttributeError
| JSONDecodeError
| OtherError (name : string).

(** Result of a Python expression: the exception it raises, or its value. *)
Definition py (A : Type) : Type := (exn + A)%type.

Definition py_ret {A} (a : A) : py A := inr a.
Definition py_raise {A} (e : exn) : py A := inl e.
Definition py_bind {A B} (m : py A) (k : A -> py B) : py B :=
  match m with
  | inl e => inl e
  | inr a => k a
  end.

Declare Scope py_scope.
Delimit Scope py_scope with py.
Notation "x <- m ;; k" := (py_bind m (fun x => k))
  (at level 61, m at next level, right associativity) : py_scope.

(* ------------------------------------------------------------------ *)
(** ** Characters and strings *)

Definition nl : string := String "010"%char EmptyString.
Definition dq : string := String "034"%char EmptyString.

Fixpoint contains_char (c : ascii) (s : string) : bool :=
  match s with
  | EmptyString => false
  | String c' s' => Ascii.eqb c c' || contains_char c s'
  end.

(** [needle in hay] on two strings: substring test. *)
Fixpoint str_contains (needle hay : string) : bool :=
  String.prefix needle hay ||
  match hay with
  | EmptyString => false
  | String _ hay' => str_contains needle hay'
  end.

Fixpoint join (sep : string) (l : list string) : string :=
  match l with
  | [] => EmptyString
  | [x] => x
  | x :: l' => x ++ sep ++ join sep l'
  end.

Definition hexdigit (n : N) : ascii :=
  match String.get (N.to_nat n) "0123456789abcdef" with
  | Some c => c
  | None => "0"%char
  end.

Definition hex2 (n : N) : string :=
  String (hexdigit (n / 16)) (String (hexdigit (n mod 16)) EmptyString).

(** One character of [repr(s)] for a string, [quote] being the quote
    character chosen for the whole string: the quote and the backslash are
    escaped, tab, line feed and carriage return are written with a letter,
    and the characters that are not printable (the control characters, the
    no-break space 160 and the soft hyphen 173) in hexadecimal. *)
Definition repr_char (quote c : ascii) : string :=
  let n := N_of_ascii c in
  if Ascii.eqb c quote || Ascii.eqb c "\"%char then String "\"%char (String c EmptyString)
  else if Ascii.eqb c "009"%char then "\t"
  else if Ascii.eqb c "010"%char then "\n"
  else if Ascii.eqb c "013"%char then "\r"
  else if ((n <? 32) || (n =? 127))%N then "\x" ++ hex2 n
  else if (n <? 127)%N then String c EmptyString
  else if ((n <=? 160) || (n =? 173))%N then "\x" ++ hex2 n
  else String c EmptyString.

Fixpoint repr_chars (quote : ascii) (s : string) : string :=
  match s with
  | EmptyString => EmptyString
  | String c s' => repr_char quote c ++ repr_chars quote s'
  end.

(** [repr(s)] for a string: single quotes, unless the string has a single
    quote and no double quote. *)
Definition repr_str (s : string) : string :=
  let quote :=
    if contains_char "'"%char s && negb (contains_char "034"%char s)
    then "034"%char else "'"%char in
  String quote (repr_chars quote s ++ String quote EmptyString).

Definition repr_int (n : Z) : string := NilZero.string_of_int (Z.to_int n).

(** [repr(v)]. *)
Fixpoint py_repr (v : value) : string :=
  match v with
  | VNone => "None"
  | VBool true => "True"
  | VBool false => "False"
  | VInt n => repr_int n
  | VFloat r => r
  | VStr s => repr_str s
  | VList items => "[" ++ join ", " (map py_repr items) ++ "]"
  | VDict items =>
      "{" ++ join ", " (map (fun kv => match kv with
                                       | (k, x) => repr_str k ++ ": " ++ py_repr x
                                       end) items) ++ "}"
  end.

(** [str(v)]: the string itself for a string, [repr] for the rest. *)
Definition py_str (v : value) : string :=
  match v with
  | VStr s => s
  | _ => py_repr v
  end.

(** Truth value of an object, as [if v:] and [not v] take it. *)
Definition truthy (v : value) : bool :=
  match v with
  | VNone => false
  | VBool b => b
  | VInt n => negb (n =? 0)
  | VFloat r => negb (String.eqb r "0.0" || String.eqb r "-0.0")
  | VStr s => negb (String.eqb s EmptyString)
  | VList items => match items with [] => false | _ => true end
  | VDict items => match items with [] => false | _ => true end
  end.

(* ------------------------------------------------------------------ *)
(** ** The Python operations the script applies to values *)

Fixpoint dict_lookup (k : string) (items : list (string * value)) : option value :=
  match items with
  | [] => None
  | (k', x) :: items' => if String.eqb k k' then Some x else dict_lookup k items'
  end.

Definition is_str (s : string) (v : value) : bool :=
  match v with
  | VStr s' => String.eqb s s'
  | _ => false
  end.

(** [s in v], for a string [s]: key test on a dict, membership on a list,
    substring test on a string, [TypeError] on the objects that are not
    containers. *)
Definition py_in (s : string) (v : value) : py bool :=
  match v with
  | VDict items => py_ret (match dict_lookup s items with Some _ => true | None => false end)
  | VList items => py_ret (existsb (is_str s) items)
  | VStr hay => py_ret (str_contains s hay)
  | _ => py_raise TypeError
  end.

(** [v[k]], for a string [k]. *)
Definition getitem_str (v : value) (k : string) : py value :=
  match v with
  | VDict items =>
      match dict_lookup k items with
      | Some x => py_ret x
      | None => py_raise KeyError
      end
  | _ => py_raise TypeError
  end.

(** [v[i]], for an index [i >= 0].  A dict has string keys only, so an
    integer is a missing key. *)
Definition getitem_int (v : value) (i : nat) : py value :=
  match v with
  | VList items =>
      match nth_error items i with
      | Some x => py_ret x
      | None => py_raise IndexError
      end
  | VStr s =>
      match String.get i s with
      | Some c => py_ret (VStr (String c EmptyString))
      | None => py_raise IndexError
      end
  | VDict _ => py_raise KeyError
  | _ => py_raise TypeError
  end.

(** [v.get(k, default)]: only a dict has the method. *)
Definition dict_get (v : value) (k : string) (default : value) : py value :=
  match v with
  | VDict items =>
      match dict_lookup k items with
      | Some x => py_ret x
      | None => py_ret default
      end
  | _ => py_raise AttributeError
  end.

(** [v[:n]]: the first [n] characters of a string, the first [n] items of a
    list.  A dict raises here too (a slice is not one of its keys). *)
Definition slice_to (v : value) (n : nat) : py value :=
  match v with
  | VStr s => py_ret (VStr (substring 0 n s))
  | VList items => py_ret (VList (firstn n items))
  | _ => py_raise TypeError
  end.

(** [len(v)] where it is defined. *)
Definition py_len (v : value) : option nat :=
  match v with
  | VStr s => Some (String.length s)
  | VList items => Some (List.length items)
  | VDict items => Some (List.length items)
  | _ => None
  end.

(* ------------------------------------------------------------------ *)
(** ** The outside world: calls, replies, programs *)

(** What a [requests] response gives the script: the status line, which the
    script never reads, and the outcome of [response.json()], which raises on
    a body that is not JSON. *)
Record Response : Type := {
  status_code : Z;
  json : py value
}.

(** The Streamlit widgets the tab bodies write to.  The fixed notices whose
    text the script does not build have a constructor each. *)
Inductive widget : Type :=
| spinner (text : string)
| warning (text : string)
| markdown (text : string)
| write (text : string)
| success_found_in_fda      (* st.success, the lookup found the drug *)
| info_not_in_us_database   (* st.info, falling back on the model's memory *)
| expander_json (label : string) (data : value)
| markdown_link (label url : string).  (* a line holding the link [label](url) *)

(** The calls that leave the script. *)
Inductive call : Type :=
| Get (url : string)
| NewChatGroq (temperature : Z) (groq_api_key : value) (model_name : string)
| Invoke (system_instruction user_input : string)
| St (w : widget).

Definition reply (c : call) : Type :=
  match c with
  | Get _ => py Response
  | NewChatGroq _ _ _ => py unit
  | Invoke _ _ => py string
  | St _ => unit
  end.

(** A run of the script: it returns, raises, or makes a call and goes on
    with the reply. *)
Inductive prog (A : Type) : Type :=
| Ret (a : A)
| Raise (e : exn)
| Vis (c : call) (k : reply c -> prog A).

Arguments Ret {A} a.
Arguments Raise {A} e.
Arguments Vis {A} c k.

Fixpoint bind {A B} (p : prog A) (f : A -> prog B) : prog B :=
  match p with
  | Ret a => f a
  | Raise e => Raise e
  | Vis c k => Vis c (fun r => bind (k r) f)
  end.

(** [try: p / except: h], with a bare [except] that takes every exception. *)
Fixpoint try_except {A} (p : prog A) (h : prog A) : prog A :=
  match p with
  | Ret a => Ret a
  | Raise _ => h
  | Vis c k => Vis c (fun r => try_except (k r) h)
  end.

Definition lift {A} (m : py A) : prog A :=
  match m with
  | inl e => Raise e
  | inr a => Ret a
  end.

Declare Scope prog_scope.
Delimit Scope prog_scope with prog.
Notation "x <- m ;; k" := (bind m (fun x => k))
  (at level 61, m at next level, right associativity) : prog_scope.
Notation "m ;; k" := (bind m (fun _ => k))
  (at level 61, right associativity) : prog_scope.

Definition requests_get (url : string) : prog Response := Vis (Get url) lift.
Definition ChatGroq (temperature : Z) (groq_api_key : value) (model_name : string)
  : prog unit := Vis (NewChatGroq temperature groq_api_key model_name) lift.
Definition chain_invoke (system_instruction user_input : string) : prog string :=
  Vis (Invoke system_instruction user_input) lift.
Definition st (w : widget) : prog unit := Vis (St w) Ret.

(** The world answers the calls; the widgets answer nothing. *)
Record world : Type := {
  http : string -> py Response;
  groq_client : Z -> value -> string -> py unit;
  groq_chat : string -> string -> py string
}.

Definition answer (w : world) (c : call) : reply c :=
  match c with
  | Get url => http w url
  | NewChatGroq t k m => groq_client w t k m
  | Invoke s u => groq_chat w s u
  | St _ => tt
  end.

(** Running a program in a world: the calls made, in order, and the
    outcome. *)
Fixpoint run {A} (w : world) (p : prog A) : list call * py A :=
  match p with
  | Ret a => ([], inr a)
  | Raise e => ([], inl e)
  | Vis c k => let (t, r) := run w (k (answer w c)) in (c :: t, r)
  end.

Definition trace {A} (w : world) (p : prog A) : list call := fst (run w p).
Definition outcome {A} (w : world) (p : prog A) : py A := snd (run w p).

(** The calls that go over the network: the HTTP GET and the completion
    request.  Building the client object is a call of its own. *)
Definition is_network (c : call) : bool :=
  match c with
  | Get _ | Invoke _ _ => true
  | NewChatGroq _ _ _ | St _ => false
  end.

(* ------------------------------------------------------------------ *)
(** ** [get_fda_drug_info] (app.py, lines 20-40) *)

Definition base_url : string := "https://api.fda.gov/drug/label.json".

Definition fda_query (drug_name : string) : string :=
  "?search=openfda.brand_name:" ++ dq ++ drug_name ++ dq ++ "&limit=1".

Definition fda_source : string := "Official US FDA Database".
Definition not_listed : value := VList [VStr "Not Listed"].

(** Lines 29-38, on the parsed payload: what the function returns, or the
    exception raised on the way. *)
Definition read_label (data : value) : py value :=
  (has_error <- py_in "error" data ;;
   if has_error : bool then py_ret VNone
   else
     results <- getitem_str data "results" ;;
     result <- getitem_int results 0 ;;
     purposes <- dict_get result "purpose" not_listed ;;
     purpose <- getitem_int purposes 0 ;;
     usages <- dict_get result "indications_and_usage" not_listed ;;
     indications <- getitem_int usages 0 ;;
     warning_list <- dict_get result "warnings" not_listed ;;
     warning0 <- getitem_int warning_list 0 ;;
     warnings <- slice_to warning0 1000 ;;
     py_ret (VDict [("source", VStr fda_source);
                    ("purpose", purpose);
                    ("indications", indications);
                    ("warnings", warnings)]))%py.

Definition get_fda_drug_info (drug_name : string) : prog value :=
  let query := fda_query drug_name in
  try_except
    (response <- requests_get (base_url ++ query) ;;
     data <- lift (json response) ;;
     lift (read_label data))%prog
    (Ret VNone).

(* ------------------------------------------------------------------ *)
(** ** [get_ai_response] (app.py, lines 43-91) *)

Definition enter_key_message : string :=
  "Please enter your API Key in the sidebar first!".

Definition model_name : string := "llama-3.3-70b-versatile".

(** The three instruction texts.  The two triple-quoted ones keep the line
    breaks and the indentation of the source. *)
Definition indent : string := "        ".

Definition with_context_text : string :=
  "You are a helpful pharmacist. Explain this technical medical data in simple English for a patient.".

Definition no_context_text : string :=
  nl ++ indent ++ "You are an expert pharmacist familiar with international medicines, including Indian brands (like Dolo, Saridon, Pan D)."
  ++ nl ++ indent ++ "1. Identify the active ingredients in the drug name provided."
  ++ nl ++ indent ++ "2. Explain its uses and side effects."
  ++ nl ++ indent ++ "3. Provide a warning: " ++ dq
     ++ "Information based on general knowledge, check the strip pack." ++ dq
  ++ nl ++ indent.

Definition triage_text : string :=
  nl ++ indent ++ "You are a senior medical triage nurse."
  ++ nl ++ indent ++ "1. Ask follow-up questions if the user's description is too vague."
  ++ nl ++ indent ++ "2. Identify if this is an emergency (Heart attack, Stroke, Anaphylaxis)."
  ++ nl ++ indent ++ "3. Suggest specialist doctors (e.g., 'See a Gastroenterologist')."
  ++ nl ++ indent ++ "4. Suggest supportive home care (hydration, rest)."
  ++ nl ++ indent ++ "5. DISCLAIMER: Always state you are an AI, not a doctor."
  ++ nl ++ indent.

(** The request the chain is invoked with. *)
Record CompletionRequest : Type := {
  system_text : string;
  input_text : string
}.

(** Lines 50-76, the branching on [mode]. *)
Definition compose (user_query : string) (context_data : value) (mode : string)
  : CompletionRequest :=
  if String.eqb mode "drug_with_context" then
    {| system_text := with_context_text;
       input_text := "Official Data: " ++ py_str context_data ++ nl ++ nl
                     ++ "User Question: " ++ user_query |}
  else if String.eqb mode "drug_no_context" then
    {| system_text := no_context_text;
       input_text := "Explain the medicine: " ++ user_query |}
  else
    {| system_text := triage_text;
       input_text := user_query |}.

(** [api_key] is the module-level variable of the script (lines 11-15), read
    by the function; it is an argument here.  The defaults of the source are
    [context_data = None] and [mode = "symptom"]. *)
Definition get_ai_response (api_key : value) (user_query : string)
    (context_data : value) (mode : string) : prog string :=
  if negb (truthy api_key) then Ret enter_key_message
  else
    (ChatGroq 0 api_key model_name ;;
     let request := compose user_query context_data mode in
     content <- chain_invoke (system_text request) (input_text request) ;;
     Ret content)%prog.

(* ------------------------------------------------------------------ *)
(** ** The tab bodies (app.py, lines 111-118, 125-141, 160-167) *)

(** Tab 1, the "Analyze Symptoms" button pressed. *)
Definition analyze_symptoms (api_key : value) (age : Z) (gender symptoms : string)
  : prog unit :=
  if truthy (VStr symptoms) then
    let full_query := "Age: " ++ repr_int age ++ ", Gender: " ++ gender
                      ++ ", Symptoms: " ++ symptoms in
    (st (spinner "Consulting medical guidelines...") ;;
     response <- get_ai_response api_key full_query VNone "symptom" ;;
     st (markdown response))%prog
  else st (warning "Please enter symptoms.").

(** Tab 2, the two arms of [if real_data:]. *)
Definition medicine_found (api_key : value) (drug_name : string) (real_data : value)
  : prog unit :=
  (st success_found_in_fda ;;
   explanation <- get_ai_response api_key ("Explain " ++ drug_name) real_data
                    "drug_with_context" ;;
   st (write explanation) ;;
   st (expander_json "View Technical Data" real_data))%prog.

Definition medicine_not_found (api_key : value) (drug_name : string) : prog unit :=
  (st info_not_in_us_database ;;
   explanation <- get_ai_response api_key drug_name VNone "drug_no_context" ;;
   st (write explanation))%prog.

(** Tab 2, the "Get Medicine Details" button pressed. *)
Definition get_medicine_details (api_key : value) (drug_name : string) : prog unit :=
  if truthy (VStr drug_name) then
    (st (spinner ("Searching information for " ++ drug_name ++ "...")) ;;
     real_data <- get_fda_drug_info drug_name ;;
     if truthy real_data then medicine_found api_key drug_name real_data
     else medicine_not_found api_key drug_name)%prog
  else Ret tt.

(** Tab 3, the links under "Find Help Nearby". *)
Definition hospital_link (user_city : string) : string :=
  "https://www.google.com/maps/search/hospitals+near+" ++ user_city.

Definition ambulance_link (user_city : string) : string :=
  "https://www.google.com/maps/search/ambulance+service+near+" ++ user_city.

Definition emergency_links (user_city : string) : prog unit :=
  if truthy (VStr user_city) then
    (st (markdown_link ("Click to Find Hospitals in " ++ user_city)
           (hospital_link user_city)) ;;
     st (markdown_link ("Click to Find Ambulance Services in " ++ user_city)
           (ambulance_link user_city)))%prog
  else Ret tt.

(* ------------------------------------------------------------------ *)
(** ** Vocabulary of the statements *)

(** What a program sent to the completion service. *)
Fixpoint completion_requests (t : list call) : list CompletionRequest :=
  match t with
  | [] => []
  | Invoke s u :: t' => {| system_text := s; input_text := u |} :: completion_requests t'
  | _ :: t' => completion_requests t'
  end.

Definition fda_url (drug_name : string) : string := base_url ++ fda_query drug_name.

(** The value [get_fda_drug_info] returns when [requests.get] is answered by
    [r]: every exception on the way is turned into [None]. *)
Definition lookup_result (r : py Response) : value :=
  match (response <- r ;; data <- json response ;; read_label data)%py with
  | inl _ => VNone
  | inr v => v
  end.

(** The first entry of [results] in a reply, when the payload is an object
    whose [results] is a list that starts with an object. *)
Definition first_result (r : py Response) : option (list (string * value)) :=
  match r with
  | inr response =>
      match json response with
      | inr (VDict top) =>
          match dict_lookup "results" top with
          | Some (VList (VDict fields :: _)) => Some fields
          | _ => None
          end
      | _ => None
      end
  | inl _ => None
  end.

(** The payload of a reply carries an [error] member. *)
Definition has_error_field (r : py Response) : bool :=
  match r with
  | inr response =>
      match json response with
      | inr (VDict top) =>
          match dict_lookup "error" top with Some _ => true | None => false end
      | _ => false
      end
  | inl _ => false
  end.

(** Lines 35-37 on the first entry: one field of the record. *)
Definition first_of (fields : list (string * value)) (k : string) : py value :=
  (xs <- dict_get (VDict fields) k not_listed ;; getitem_int xs 0)%py.

Definition record_of (fields : list (string * value)) : py value :=
  (purpose <- first_of fields "purpose" ;;
   indications <- first_of fields "indications_and_usage" ;;
   warning0 <- first_of fields "warnings" ;;
   warnings <- slice_to warning0 1000 ;;
   py_ret (VDict [("source", VStr fda_source);
                  ("purpose", purpose);
                  ("indications", indications);
                  ("warnings", warnings)]))%py.

Ltac split_binds :=
  repeat match goal with
    | |- context [py_bind ?m _] =>
        lazymatch m with
        | py_bind _ _ => fail
        | _ => destruct m eqn:?; simpl
        end
    end.

(** A record of the lookup: the four keys in the order of the dict display,
    a constant [source], a [warnings] of at most 1000 characters. *)
Definition is_record (v : value) : Prop :=
  exists purpose indications warnings n,
    v = VDict [("source", VStr fda_source);
               ("purpose", purpose);
               ("indications", indications);
               ("warnings", warnings)]
    /\ py_len warnings = Some n /\ (n <= 1000)%nat.

(** The failures of the lookup: no reply, a body that is not JSON, a payload
    with an [error] member, an empty [results] list. *)
Inductive lookup_failure : py Response -> Prop :=
| transport_failure (e : exn) :
    lookup_failure (inl e)
| unparseable_response (response : Response) (e : exn) :
    json response = inl e ->
    lookup_failure (inr response)
| error_indicator (r : py Response) :
    has_error_field r = true ->
    lookup_failure r
| empty_result_list (response : Response) (top : list (string * value)) :
    json response = inr (VDict top) ->
    dict_lookup "results" top = Some (VList []) ->
    lookup_failure (inr response).

(** Follows the spec (4.1): the text of a field of the first result, "the
    literal string Not Listed for any missing field".  [None] when the field
    is there but is not a list that starts with a string. *)
Definition field_text (fields : list (string * value)) (k : string) : option string :=
  match dict_lookup k fields with
  | None => Some "Not Listed"
  | Some (VList (VStr s :: _)) => Some s
  | Some _ => None
  end.

(** Sample replies and worlds. *)
Definition advil_payload : value :=
  VDict [("meta", VDict [("results", VDict [("skip", VInt 0); ("limit", VInt 1)])]);
         ("results",
          VList [VDict [("purpose", VList [VStr "pain reliever"; VStr "fever reducer"]);
                        ("warnings", VList [VStr "Don't exceed the dose"])]])].

Definition not_found_payload : value :=
  VDict [("error", VDict [("code", VStr "NOT_FOUND");
                          ("message", VStr "No matches found!")])].

Definition full_label_payload : value :=
  VDict [("results",
          VList [VDict [("purpose", VList [VStr "pain reliever"; VStr "fever reducer"]);
                        ("indications_and_usage",
                         VList [VStr "temporarily relieves minor aches";
                                VStr "reduces fever"]);
                        ("warnings",
                         VList [VStr "Don't exceed the dose"; VStr "Ask a doctor"])]])].

Definition empty_purpose_payload : value :=
  VDict [("results", VList [VDict [("purpose", VList []);
                                   ("warnings", VList [VStr "Keep out of reach"])]])].

Definition world_replying (status : Z) (payload : value) : world :=
  {| http := fun _ => inr {| status_code := status; json := inr payload |};
     groq_client := fun _ _ _ => inr tt;
     groq_chat := fun _ _ => inr "Take it with food." |}.

Definition world_offline : world :=
  {| http := fun _ => inl (OtherError "ConnectionError");
     groq_client := fun _ _ _ => inr tt;
     groq_chat := fun _ _ => inl (OtherError "APIConnectionError") |}.

(** The URLs of the links a program put on the page. *)
Fixpoint shown_links (t : list call) : list string :=
  match t with
  | [] => []
  | St (markdown_link _ url) :: t' => url :: shown_links t'
  | _ :: t' => shown_links t'
  end.

Definition is_widget (c : call) : bool :=
  match c with
  | St _ => true
  | _ => false
  end.

Definition advil_record : value :=
  VDict [("source", VStr "Official US FDA Database");
         ("purpose", VStr "pain reliever");
         ("indications", VStr "Not Listed");
         ("warnings", VStr "Don't exceed the dose")].

(* ------------------------------------------------------------------ *)
(** ** The API key of the sidebar (app.py, lines 11-15) *)

(** [st.secrets] as the script meets it: the mapping read from the secrets
    file, or the exception that reading it raises when there is no secrets
    file.  The membership test and the subscript both read it. *)
Definition secrets_in (k : string) (secrets : py (list (string * value))) : py bool :=
  (items <- secrets ;; py_in k (VDict items))%py.

Definition secrets_getitem (secrets : py (list (string * value))) (k : string)
  : py value :=
  (items <- secrets ;; getitem_str (VDict items) k)%py.

(** The value bound to [api_key]: the entry of the secrets when there is
    one, else what the password field of the sidebar returns.  [typed] is the
    text of the field, which the script reads only in the [else] branch. *)
Definition sidebar_api_key (secrets : py (list (string * value))) (typed : string)
  : py value :=
  (configured <- secrets_in "GROQ_API_KEY" secrets ;;
   if configured : bool then secrets_getitem secrets "GROQ_API_KEY"
   else py_ret (VStr typed))%py.

(* ------------------------------------------------------------------ *)
(** ** More vocabulary *)

(** The URLs a program requested over HTTP. *)
Fixpoint http_requests (t : list call) : list string :=
  match t with
  | [] => []
  | Get url :: t' => url :: http_requests t'
  | _ :: t' => http_requests t'
  end.



Definition string_purpose_payload : value :=
  VDict [("results", VList [VDict [("purpose", VStr "pain reliever")]])].

Definition array_payload : value := VList [VStr "error"].

Definition world_chat_failing (payload : value) : world :=
  {| http := fun _ => inr {| status_code := 200; json := inr payload |};
     groq_client := fun _ _ _ => inr tt;
     groq_chat := fun _ _ => inl (OtherError "RateLimitError") |}.

Definition world_client_failing : world :=
  {| http := fun _ => inr {| status_code := 200; json := inr advil_payload |};
     groq_client := fun _ _ _ => inl (OtherError "ValidationError");
     groq_chat := fun _ _ => inr "unreachable" |}.

(* ------------------------------------------------------------------ *)
(** ** Sanity checks and the equations of [run] *)

Example repr_examples :
  py_repr (VDict [("source", VStr "Official US FDA Database");
                  ("n", VList [VInt (-12); VInt 0; VBool true; VNone]);
                  ("w", VStr ("it's" ++ nl))])
  = "{'source': 'Official US FDA Database', 'n': [-12, 0, True, None], 'w': " ++ dq ++ "it's\n" ++ dq ++ "}".
Proof. reflexivity. Qed.

Lemma run_bind {A B} (w : world) (p : prog A) (f : A -> prog B) :
  run w (bind p f) =
  match run w p with
  | (t, inl e) => (t, inl e)
  | (t, inr a) => ((t ++ fst (run w (f a)))%list, snd (run w (f a)))
  end.
Proof.
  induction p as [a | e | c k IH]; simpl.
  - now destruct (run w (f a)).
  - reflexivity.
  - rewrite IH. destruct (run w (k (answer w c))) as [t [e | a]]; reflexivity.
Qed.

Lemma run_try_except {A} (w : world) (p h : prog A) :
  run w (try_except p h) =
  match run w p with
  | (t, inl _) => ((t ++ fst (run w h))%list, snd (run w h))
  | (t, inr a) => (t, inr a)
  end.
Proof.
  induction p as [a | e | c k IH]; simpl.
  - reflexivity.
  - now destruct (run w h).
  - rewrite IH. destruct (run w (k (answer w c))) as [t [e | a]]; reflexivity.
Qed.

Lemma run_lift {A} (w : world) (m : py A) : run w (lift m) = ([], m).
Proof. destruct m; reflexivity. Qed.

Lemma run_st (w : world) (x : widget) : run w (st x) = ([St x], inr tt).
Proof. reflexivity. Qed.

Lemma run_requests_get (w : world) (url : string) :
  run w (requests_get url) = ([Get url], http w url).
Proof. unfold requests_get. simpl. now rewrite run_lift. Qed.

Lemma run_ChatGroq (w : world) (t : Z) (k : value) (m : string) :
  run w (ChatGroq t k m) = ([NewChatGroq t k m], groq_client w t k m).
Proof. unfold ChatGroq. simpl. now rewrite run_lift. Qed.

Lemma run_chain_invoke (w : world) (s u : string) :
  run w (chain_invoke s u) = ([Invoke s u], groq_chat w s u).
Proof. unfold chain_invoke. simpl. now rewrite run_lift. Qed.

Lemma completion_requests_app (t t' : list call) :
  completion_requests (t ++ t')%list
  = (completion_requests t ++ completion_requests t')%list.
Proof.
  induction t as [| c t IH]; simpl; [reflexivity |].
  destruct c; simpl; now rewrite ?IH.
Qed.

Lemma run_get_fda_drug_info (w : world) (drug_name : string) :
  run w (get_fda_drug_info drug_name) =
  ([Get (fda_url drug_name)], inr (lookup_result (http w (fda_url drug_name)))).
Proof.
  unfold get_fda_drug_info, lookup_result. fold (fda_url drug_name).
  generalize (fda_url drug_name) as url. intro url.
  rewrite run_try_except, run_bind, run_requests_get.
  destruct (http w url) as [e | resp]; simpl; [reflexivity |].
  rewrite run_bind, !run_lift.
  destruct (json resp) as [e | data]; simpl; [reflexivity |].
  destruct (read_label data) as [e | v]; reflexivity.
Qed.

Lemma lookup_result_first (r : py Response) (fields : list (string * value)) :
  first_result r = Some fields ->
  lookup_result r =
  if has_error_field r then VNone
  else match record_of fields with inl _ => VNone | inr v => v end.
Proof.
  unfold first_result, has_error_field, lookup_result.
  destruct r as [e | resp]; [discriminate |]. simpl.
  destruct (json resp) as [e | data]; [discriminate |].
  destruct data as [| | | | | | top]; try discriminate.
  unfold read_label. simpl.
  destruct (dict_lookup "error" top); simpl; [reflexivity |].
  destruct (dict_lookup "results" top) as [v |]; [| discriminate].
  destruct v as [| | | | | items |]; try discriminate.
  destruct items as [| v items]; [discriminate |].
  destruct v as [| | | | | | fields']; try discriminate.
  intros [= ->]. unfold record_of, first_of. simpl.
  destruct (dict_lookup "purpose" fields) as [v1 |]; simpl.
  all: repeat match goal with
       | |- context [py_bind ?m _] =>
           match m with
           | py_bind _ _ => fail 1
           | _ => destruct m eqn:?; simpl
           end
       end; reflexivity.
Qed.

Lemma first_of_cases (fields : list (string * value)) (k : string) :
  first_of fields k =
  match dict_lookup k fields with
  | None => inr (VStr "Not Listed")
  | Some xs => getitem_int xs 0
  end.
Proof. unfold first_of. simpl. now destruct (dict_lookup k fields). Qed.

Lemma length_substring_0 (n : nat) (s : string) :
  String.length (substring 0 n s) = Nat.min n (String.length s).
Proof.
  revert s. induction n as [| n IH]; intros [| c s]; simpl; auto.
Qed.

Lemma prefix_substring_0 (n : nat) (s : string) :
  String.prefix (substring 0 n s) s = true.
Proof.
  revert s. induction n as [| n IH]; intros [| c s]; simpl; auto.
  destruct (ascii_dec c c) as [_ | ne]; [apply IH | now elim ne].
Qed.

Lemma slice_to_len (v v' : value) (n : nat) :
  slice_to v n = inr v' -> exists m, py_len v' = Some m /\ (m <= n)%nat.
Proof.
  destruct v; try discriminate; intros [= <-]; simpl.
  - eexists; split; [reflexivity |]. rewrite length_substring_0. apply Nat.le_min_l.
  - eexists; split; [reflexivity |]. apply firstn_le_length.
Qed.

Lemma read_label_shape (data v : value) :
  read_label data = inr v -> v = VNone \/ is_record v.
Proof.
  unfold read_label. destruct (py_in "error" data) as [e | [|]]; simpl.
  - discriminate.
  - intros [= <-]. now left.
  - split_binds; try discriminate.
    intros [= <-]. right.
    match goal with H : slice_to _ _ = inr _ |- _ =>
      destruct (slice_to_len _ _ _ H) as (m & Hm & Hle) end.
    now repeat eexists; eauto.
Qed.

(** The lookup has two outcomes: [None], or a record. *)
Lemma lookup_result_shape (r : py Response) :
  lookup_result r = VNone \/ is_record (lookup_result r).
Proof.
  unfold lookup_result. destruct r as [e | resp]; simpl; [now left |].
  destruct (json resp) as [e | data]; simpl; [now left |].
  destruct (read_label data) as [e | v] eqn:E; [now left |].
  now apply read_label_shape in E.
Qed.

Lemma is_record_truthy (v : value) : is_record v -> truthy v = true.
Proof. intros (p & i & x & n & -> & _). reflexivity. Qed.

Lemma is_record_not_None (v : value) : is_record v -> v <> VNone.
Proof. intros (p & i & x & n & -> & _). discriminate. Qed.

Lemma lookup_failure_None (r : py Response) :
  lookup_failure r -> lookup_result r = VNone.
Proof.
  unfold lookup_result.
  intros [e | resp e E | r' E | resp top E1 E2]; simpl.
  - reflexivity.
  - now rewrite E.
  - unfold has_error_field in E. destruct r' as [e | resp]; [discriminate |]. simpl.
    destruct (json resp) as [e | data]; [discriminate |].
    destruct data as [| | | | | | top]; try discriminate.
    unfold read_label. simpl.
    now destruct (dict_lookup "error" top).
  - rewrite E1. unfold read_label. simpl.
    destruct (dict_lookup "error" top); simpl; [reflexivity |].
    now rewrite E2.
Qed.


(* ------------------------------------------------------------------ *)
(** ** The drug lookup *)

(** C2: whatever the world answers, [get_fda_drug_info] returns a value and
    never raises; and on every failure of the lookup (transport error,
    unparseable response, an [error] member in the payload, an empty result
    list) the value it returns is [None]. *)
Theorem lookup_failure_returns_None (w : world) (drug_name : string) :
  (exists v, outcome w (get_fda_drug_info drug_name) = inr v) /\
  (lookup_failure (http w (fda_url drug_name)) ->
   run w (get_fda_drug_info drug_name) = ([Get (fda_url drug_name)], inr VNone)).
Proof.
  unfold outcome. rewrite run_get_fda_drug_info. split.
  - now eexists.
  - intros F. now rewrite (lookup_failure_None _ F).
Qed.

Lemma lookup_failure_returns_None_witness :
  run world_offline (get_fda_drug_info "Advil") = ([Get (fda_url "Advil")], inr VNone)
  /\ run (world_replying 404 not_found_payload) (get_fda_drug_info "Dolo 650")
     = ([Get (fda_url "Dolo 650")], inr VNone).
Proof.
  split.
  - apply (proj2 (lookup_failure_returns_None world_offline "Advil")).
    apply transport_failure.
  - apply (proj2 (lookup_failure_returns_None (world_replying 404 not_found_payload)
                    "Dolo 650")).
    apply error_indicator. reflexivity.
Defined.

(** C4: on a successful lookup (the payload has no [error] member, and each
    of the three fields of the first result is missing or a list that starts
    with a string) the function returns the record whose [source] is the
    constant label, whose fields are the first texts, ["Not Listed"] standing
    for every missing field, and whose [warnings] is cut after 1000
    characters: a prefix of the text, of length [min 1000 (length text)]. *)
Theorem lookup_success_record (w : world) (drug_name : string)
    (fields : list (string * value)) (purpose indications warnings : string) :
  first_result (http w (fda_url drug_name)) = Some fields ->
  has_error_field (http w (fda_url drug_name)) = false ->
  field_text fields "purpose" = Some purpose ->
  field_text fields "indications_and_usage" = Some indications ->
  field_text fields "warnings" = Some warnings ->
  outcome w (get_fda_drug_info drug_name)
  = inr (VDict [("source", VStr "Official US FDA Database");
                ("purpose", VStr purpose);
                ("indications", VStr indications);
                ("warnings", VStr (substring 0 1000 warnings))])
  /\ String.length (substring 0 1000 warnings) = Nat.min 1000 (String.length warnings)
  /\ (String.length (substring 0 1000 warnings) <= 1000)%nat
  /\ String.prefix (substring 0 1000 warnings) warnings = true
  /\ (dict_lookup "purpose" fields = None -> purpose = "Not Listed")
  /\ (dict_lookup "indications_and_usage" fields = None -> indications = "Not Listed")
  /\ (dict_lookup "warnings" fields = None ->
      substring 0 1000 warnings = "Not Listed").
Proof.
  intros Hfirst Herr Hp Hi Hw.
  assert (L := length_substring_0 1000 warnings).
  repeat split.
  - unfold outcome. rewrite run_get_fda_drug_info. simpl snd.
    rewrite (lookup_result_first _ _ Hfirst), Herr.
    unfold record_of. rewrite !first_of_cases.
    unfold field_text in Hp, Hi, Hw.
    destruct (dict_lookup "purpose" fields) as [[| | | | | [| [] ?] |] |];
      try discriminate; injection Hp as <-.
    all: destruct (dict_lookup "indications_and_usage" fields)
      as [[| | | | | [| [] ?] |] |]; try discriminate; injection Hi as <-.
    all: destruct (dict_lookup "warnings" fields) as [[| | | | | [| [] ?] |] |];
      try discriminate; injection Hw as <-.
    all: reflexivity.
  - exact L.
  - rewrite L. apply Nat.le_min_l.
  - apply prefix_substring_0.
  - unfold field_text in Hp. intros E. rewrite E in Hp. now injection Hp as <-.
  - unfold field_text in Hi. intros E. rewrite E in Hi. now injection Hi as <-.
  - unfold field_text in Hw. intros E. rewrite E in Hw. now injection Hw as <-.
Qed.

Lemma lookup_success_record_witness :
  outcome (world_replying 200 advil_payload) (get_fda_drug_info "Advil")
  = inr (VDict [("source", VStr "Official US FDA Database");
                ("purpose", VStr "pain reliever");
                ("indications", VStr "Not Listed");
                ("warnings", VStr (substring 0 1000 "Don't exceed the dose"))]).
Proof.
  refine (proj1 (lookup_success_record (world_replying 200 advil_payload) "Advil"
                   [("purpose", VList [VStr "pain reliever"; VStr "fever reducer"]);
                    ("warnings", VList [VStr "Don't exceed the dose"])]
                   "pain reliever" "Not Listed" "Don't exceed the dose"
                   _ _ _ _ _)); reflexivity.
Defined.

(** C10: only the first element of a field's array reaches the record: when
    the three fields of the first result are arrays with a first element
    (a string, for the warnings) the lookup returns the record of those
    first elements, whatever follows them in the arrays.  And when one of
    the three fields is present but is an empty array the lookup returns
    [None]: ["Not Listed"] stands for a field that is absent, not for one
    that is empty. *)
Theorem empty_field_is_not_found (w : world) (drug_name : string)
    (fields : list (string * value)) :
  first_result (http w (fda_url drug_name)) = Some fields ->
  (forall k, In k ["purpose"; "indications_and_usage"; "warnings"] ->
             dict_lookup k fields = Some (VList []) ->
             outcome w (get_fda_drug_info drug_name) = inr VNone)
  /\
  (has_error_field (http w (fda_url drug_name)) = false ->
   forall x xs y ys text zs,
     dict_lookup "purpose" fields = Some (VList (x :: xs)) ->
     dict_lookup "indications_and_usage" fields = Some (VList (y :: ys)) ->
     dict_lookup "warnings" fields = Some (VList (VStr text :: zs)) ->
     outcome w (get_fda_drug_info drug_name)
     = inr (VDict [("source", VStr "Official US FDA Database");
                   ("purpose", x);
                   ("indications", y);
                   ("warnings", VStr (substring 0 1000 text))]))
  /\
  (forall r, outcome w (get_fda_drug_info drug_name) = inr r -> r <> VNone ->
     (forall x xs, dict_lookup "purpose" fields = Some (VList (x :: xs)) ->
                   getitem_str r "purpose" = inr x) /\
     (forall x xs, dict_lookup "indications_and_usage" fields = Some (VList (x :: xs)) ->
                   getitem_str r "indications" = inr x) /\
     (forall x xs, dict_lookup "warnings" fields = Some (VList (x :: xs)) ->
                   getitem_str r "warnings" = slice_to x 1000)).
Proof.
  intros Hfirst. unfold outcome. rewrite run_get_fda_drug_info. simpl snd.
  rewrite (lookup_result_first _ _ Hfirst).
  destruct (has_error_field (http w (fda_url drug_name))).
  { split; [reflexivity |]. split; [discriminate |].
    intros r [= <-] N. now elim N. }
  unfold record_of. rewrite !first_of_cases. split; [| split].
  - intros k [<- | [<- | [<- | []]]] E; rewrite E; simpl.
    + reflexivity.
    + now destruct (match dict_lookup "purpose" fields with
                    | Some xs => getitem_int xs 0
                    | None => inr (VStr "Not Listed")
                    end).
    + destruct (match dict_lookup "purpose" fields with
                | Some xs => getitem_int xs 0
                | None => inr (VStr "Not Listed")
                end); simpl; [reflexivity |].
      now destruct (match dict_lookup "indications_and_usage" fields with
                    | Some xs => getitem_int xs 0
                    | None => inr (VStr "Not Listed")
                    end).
  - intros _ x xs y ys text zs Ep Ei Ew. rewrite Ep, Ei, Ew. reflexivity.
  - intros r E N.
    destruct (match dict_lookup "purpose" fields with
              | Some xs => getitem_int xs 0
              | None => inr (VStr "Not Listed")
              end) as [e | p] eqn:Ep; simpl in E;
      [injection E as <-; now elim N |].
    destruct (match dict_lookup "indications_and_usage" fields with
              | Some xs => getitem_int xs 0
              | None => inr (VStr "Not Listed")
              end) as [e | i] eqn:Ei; simpl in E;
      [injection E as <-; now elim N |].
    destruct (match dict_lookup "warnings" fields with
              | Some xs => getitem_int xs 0
              | None => inr (VStr "Not Listed")
              end) as [e | w0] eqn:Ew; simpl in E;
      [injection E as <-; now elim N |].
    destruct (slice_to w0 1000) as [e | wn] eqn:Es; simpl in E;
      [injection E as <-; now elim N |].
    injection E as <-.
    repeat split; intros x xs Ex.
    + rewrite Ex in Ep. simpl in Ep. now injection Ep as <-.
    + rewrite Ex in Ei. simpl in Ei. now injection Ei as <-.
    + rewrite Ex in Ew. simpl in Ew. injection Ew as <-. now rewrite Es.
Qed.

Lemma empty_field_is_not_found_witness :
  outcome (world_replying 200 empty_purpose_payload) (get_fda_drug_info "Advil")
  = inr VNone
  /\
  outcome (world_replying 200 full_label_payload) (get_fda_drug_info "Advil")
  = inr (VDict [("source", VStr "Official US FDA Database");
                ("purpose", VStr "pain reliever");
                ("indications", VStr "temporarily relieves minor aches");
                ("warnings", VStr (substring 0 1000 "Don't exceed the dose"))]).
Proof.
  split.
  - refine (proj1 (empty_field_is_not_found (world_replying 200 empty_purpose_payload)
                     "Advil"
                     [("purpose", VList []);
                      ("warnings", VList [VStr "Keep out of reach"])] _)
                  "purpose" _ _).
    + reflexivity.
    + simpl. auto.
    + reflexivity.
  - refine (proj1 (proj2 (empty_field_is_not_found
                            (world_replying 200 full_label_payload) "Advil"
                            [("purpose", VList [VStr "pain reliever"; VStr "fever reducer"]);
                             ("indications_and_usage",
                              VList [VStr "temporarily relieves minor aches";
                                     VStr "reduces fever"]);
                             ("warnings",
                              VList [VStr "Don't exceed the dose"; VStr "Ask a doctor"])]
                            _))
                  _ (VStr "pain reliever") [VStr "fever reducer"]
                  (VStr "temporarily relieves minor aches") [VStr "reduces fever"]
                  "Don't exceed the dose" [VStr "Ask a doctor"] _ _ _);
      reflexivity.
Defined.

(* ------------------------------------------------------------------ *)
(** ** Traces of the completion call and of the tab bodies *)

Lemma trace_bind {A B} (w : world) (p : prog A) (f : A -> prog B) :
  trace w (bind p f) =
  (trace w p ++ match outcome w p with
                | inl _ => []
                | inr a => trace w (f a)
                end)%list.
Proof.
  unfold trace, outcome. rewrite run_bind.
  destruct (run w p) as [t [e | a]]; simpl; [now rewrite app_nil_r | reflexivity].
Qed.

Lemma outcome_bind {A B} (w : world) (p : prog A) (f : A -> prog B) :
  outcome w (bind p f) =
  match outcome w p with
  | inl e => inl e
  | inr a => outcome w (f a)
  end.
Proof.
  unfold outcome. rewrite run_bind.
  destruct (run w p) as [t [e | a]]; reflexivity.
Qed.

Lemma trace_st_bind {B} (w : world) (x : widget) (f : unit -> prog B) :
  trace w (bind (st x) f) = St x :: trace w (f tt).
Proof. unfold trace. simpl. now destruct (run w (f tt)). Qed.

Lemma outcome_st_bind {B} (w : world) (x : widget) (f : unit -> prog B) :
  outcome w (bind (st x) f) = outcome w (f tt).
Proof. unfold outcome. simpl. now destruct (run w (f tt)). Qed.

Lemma truthy_nonempty (s : string) : s <> EmptyString -> truthy (VStr s) = true.
Proof.
  intros N. simpl. destruct (String.eqb_spec s EmptyString); [contradiction | reflexivity].
Qed.

Lemma run_get_ai_response (w : world) (api_key : value) (user_query : string)
    (context_data : value) (mode : string) :
  run w (get_ai_response api_key user_query context_data mode) =
  if truthy api_key then
    match groq_client w 0 api_key model_name with
    | inl e => ([NewChatGroq 0 api_key model_name], inl e)
    | inr _ =>
        let request := compose user_query context_data mode in
        ([NewChatGroq 0 api_key model_name;
          Invoke (system_text request) (input_text request)],
         groq_chat w (system_text request) (input_text request))
    end
  else ([], inr enter_key_message).
Proof.
  unfold get_ai_response. destruct (truthy api_key); simpl negb; cbv iota;
    [| reflexivity].
  rewrite run_bind, run_ChatGroq.
  destruct (groq_client w 0 api_key model_name) as [e | []]; [reflexivity |].
  rewrite run_bind, run_chain_invoke. simpl.
  now destruct (groq_chat w _ _).
Qed.

(** A call of [get_ai_response] sends at most one request, the composed one. *)
Lemma requests_get_ai_response (w : world) (api_key : value) (user_query : string)
    (context_data : value) (mode : string) :
  let sent := completion_requests
                (trace w (get_ai_response api_key user_query context_data mode)) in
  sent = [] \/ sent = [compose user_query context_data mode].
Proof.
  unfold trace. rewrite run_get_ai_response.
  destruct (truthy api_key); [| now left].
  destruct (groq_client w 0 api_key model_name); [now left | right].
  simpl. now destruct (compose user_query context_data mode).
Qed.

Lemma requests_medicine_found (w : world) (api_key : value) (drug_name : string)
    (real_data : value) :
  completion_requests (trace w (medicine_found api_key drug_name real_data)) =
  completion_requests
    (trace w (get_ai_response api_key ("Explain " ++ drug_name) real_data
                "drug_with_context")).
Proof.
  unfold medicine_found. rewrite trace_st_bind. simpl completion_requests.
  rewrite trace_bind, completion_requests_app.
  destruct (outcome w (get_ai_response _ _ _ _)); simpl; now rewrite app_nil_r.
Qed.

Lemma requests_medicine_not_found (w : world) (api_key : value) (drug_name : string) :
  completion_requests (trace w (medicine_not_found api_key drug_name)) =
  completion_requests
    (trace w (get_ai_response api_key drug_name VNone "drug_no_context")).
Proof.
  unfold medicine_not_found. rewrite trace_st_bind. simpl completion_requests.
  rewrite trace_bind, completion_requests_app.
  destruct (outcome w (get_ai_response _ _ _ _)); simpl; now rewrite app_nil_r.
Qed.

(** The medicine tab with a name typed in: the spinner, the lookup, then one
    of the two arms, chosen by the truth value of what the lookup returned. *)
Lemma run_get_medicine_details (w : world) (api_key : value) (drug_name : string) :
  drug_name <> EmptyString ->
  let real_data := lookup_result (http w (fda_url drug_name)) in
  let arm := if truthy real_data
             then medicine_found api_key drug_name real_data
             else medicine_not_found api_key drug_name in
  run w (get_medicine_details api_key drug_name) =
  (St (spinner ("Searching information for " ++ drug_name ++ "..."))
     :: Get (fda_url drug_name) :: trace w arm,
   outcome w arm).
Proof.
  intros N. unfold get_medicine_details. rewrite (truthy_nonempty _ N).
  rewrite run_bind, run_st, run_bind, run_get_fda_drug_info. simpl.
  unfold trace, outcome.
  now destruct (truthy (lookup_result (http w (fda_url drug_name)))).
Qed.

Lemma templates_distinct :
  with_context_text <> no_context_text /\
  with_context_text <> triage_text /\
  no_context_text <> triage_text.
Proof. repeat split; discriminate. Qed.

(* ------------------------------------------------------------------ *)
(** ** The completion call *)

(** C3: with an API key that is empty or absent (any object that is false:
    the empty string, [None]), [get_ai_response] is the program that returns
    the "enter your key" message at once: it makes no call at all (no client
    is built, nothing goes over the network, nothing is written to the page)
    and it does not raise. *)
Theorem missing_key_message (api_key : value) (user_query : string)
    (context_data : value) (mode : string) :
  truthy api_key = false ->
  get_ai_response api_key user_query context_data mode
  = Ret "Please enter your API Key in the sidebar first!"
  /\ forall w, run w (get_ai_response api_key user_query context_data mode)
               = ([], inr "Please enter your API Key in the sidebar first!").
Proof.
  intros F. unfold get_ai_response. rewrite F. split; reflexivity.
Qed.

Lemma missing_key_message_witness :
  get_ai_response (VStr EmptyString) "fever and chills" VNone "symptom"
  = Ret "Please enter your API Key in the sidebar first!"
  /\ get_ai_response VNone "Explain Advil" advil_record "drug_with_context"
     = Ret "Please enter your API Key in the sidebar first!".
Proof.
  split.
  - apply (proj1 (missing_key_message (VStr EmptyString) "fever and chills" VNone
                    "symptom" eq_refl)).
  - apply (proj1 (missing_key_message VNone "Explain Advil" advil_record
                    "drug_with_context" eq_refl)).
Defined.

Lemma requests_sent (w : world) (api_key : value) (user_query : string)
    (context_data : value) (mode : string) :
  truthy api_key = true ->
  groq_client w 0 api_key model_name = inr tt ->
  completion_requests (trace w (get_ai_response api_key user_query context_data mode))
  = [compose user_query context_data mode].
Proof.
  intros K C. unfold trace. rewrite run_get_ai_response, K, C. simpl.
  now destruct (compose user_query context_data mode).
Qed.

Lemma request_is_composed (w : world) (api_key : value) (user_query : string)
    (context_data : value) (mode : string) (req : CompletionRequest) :
  In req (completion_requests
            (trace w (get_ai_response api_key user_query context_data mode))) ->
  req = compose user_query context_data mode.
Proof.
  destruct (requests_get_ai_response w api_key user_query context_data mode)
    as [-> | ->]; [intros [] | intros [<- | []]; reflexivity].
Qed.

Lemma system_text_compose (user_query : string) (context_data : value) (mode : string) :
  system_text (compose user_query context_data mode) =
  if String.eqb mode "drug_with_context" then with_context_text
  else if String.eqb mode "drug_no_context" then no_context_text
  else triage_text.
Proof.
  unfold compose.
  destruct (String.eqb mode "drug_with_context"); [reflexivity |].
  destruct (String.eqb mode "drug_no_context"); reflexivity.
Qed.

(** C5: in mode [symptom] the instruction is the triage text whatever the
    query; and the instruction depends on the mode alone: two compositions
    in the same mode give the same instruction whatever the query and the
    record, and so do any two requests that reach the completion service. *)
Theorem system_text_by_mode :
  (forall Q R, system_text (compose Q R "symptom") = triage_text)
  /\ (forall mode Q R Q' R',
        system_text (compose Q R mode) = system_text (compose Q' R' mode))
  /\ (forall mode w key Q R w' key' Q' R' req req',
        In req (completion_requests (trace w (get_ai_response key Q R mode))) ->
        In req' (completion_requests (trace w' (get_ai_response key' Q' R' mode))) ->
        system_text req = system_text req').
Proof.
  repeat split.
  - intros. now rewrite !system_text_compose.
  - intros mode w key Q R w' key' Q' R' req req' H H'.
    apply request_is_composed in H, H'. subst.
    now rewrite !system_text_compose.
Qed.

Lemma system_text_by_mode_witness :
  system_text {| system_text := triage_text;
                 input_text := "Age: 25, Gender: Male, Symptoms: fever and chills" |}
  = system_text {| system_text := triage_text; input_text := "cough" |}.
Proof.
  refine (proj2 (proj2 system_text_by_mode) "symptom"
            (world_replying 200 advil_payload) (VStr "gsk_key")
            "Age: 25, Gender: Male, Symptoms: fever and chills" VNone
            (world_replying 404 not_found_payload) (VStr "other_key")
            "cough" advil_record _ _ _ _); simpl; auto.
Defined.

(* ------------------------------------------------------------------ *)
(** ** The composed user content *)

Lemma append_assoc (a b c : string) : (a ++ b) ++ c = a ++ b ++ c.
Proof. induction a as [| x a IH]; simpl; [reflexivity | now rewrite IH]. Qed.

Lemma prefix_append (s t : string) : String.prefix s (s ++ t) = true.
Proof.
  induction s as [| c s IH]; simpl; [now destruct t |].
  destruct (ascii_dec c c) as [_ | ne]; [exact IH | now elim ne].
Qed.

Lemma str_contains_prefix (needle hay : string) :
  String.prefix needle hay = true -> str_contains needle hay = true.
Proof.
  intros H. destruct hay as [| c hay].
  - now destruct needle.
  - change (String.prefix needle (String c hay) || str_contains needle hay = true).
    now rewrite H.
Qed.

Lemma str_contains_append_l (needle a s : string) :
  str_contains needle s = true -> str_contains needle (a ++ s) = true.
Proof.
  intros H. induction a as [| c a IH]; simpl; [exact H |].
  fold (str_contains needle (a ++ s)). rewrite IH. apply orb_true_r.
Qed.

Lemma str_contains_middle (a b c : string) : str_contains b (a ++ b ++ c) = true.
Proof.
  apply str_contains_append_l, str_contains_prefix, prefix_append.
Qed.

Lemma py_str_record (purpose indications warnings : value) :
  py_str (VDict [("source", VStr fda_source);
                 ("purpose", purpose);
                 ("indications", indications);
                 ("warnings", warnings)])
  = "{'source': 'Official US FDA Database', 'purpose': " ++ py_repr purpose
    ++ ", 'indications': " ++ py_repr indications
    ++ ", 'warnings': " ++ py_repr warnings ++ "}".
Proof.
  unfold py_str. cbn [py_repr map join].
  now rewrite !append_assoc.
Qed.

(** C6: in mode [drug_with_context] the user content is the text
    ["Official Data: "], then [str] of the record, then a blank line and
    ["User Question: "] followed by the query: it contains the serialization
    of the record and ends with the question.  That serialization is the
    [repr] of the dict: for a record of the lookup, its four keys with the
    [repr] of their values.  Every request that reaches the completion
    service in this mode carries that content. *)
Theorem with_context_user_content (Q : string) (R : value) :
  input_text (compose Q R "drug_with_context")
  = "Official Data: " ++ py_str R ++ nl ++ nl ++ "User Question: " ++ Q
  /\ str_contains (py_str R) (input_text (compose Q R "drug_with_context")) = true
  /\ (forall purpose indications warnings,
        R = VDict [("source", VStr "Official US FDA Database");
                   ("purpose", purpose);
                   ("indications", indications);
                   ("warnings", warnings)] ->
        py_str R
        = "{'source': 'Official US FDA Database', 'purpose': " ++ py_repr purpose
          ++ ", 'indications': " ++ py_repr indications
          ++ ", 'warnings': " ++ py_repr warnings ++ "}")
  /\ (forall w api_key req,
        In req (completion_requests
                  (trace w (get_ai_response api_key Q R "drug_with_context"))) ->
        input_text req
        = "Official Data: " ++ py_str R ++ nl ++ nl ++ "User Question: " ++ Q).
Proof.
  assert (E : input_text (compose Q R "drug_with_context")
              = "Official Data: " ++ py_str R ++ nl ++ nl ++ "User Question: " ++ Q)
    by reflexivity.
  repeat split.
  - rewrite E. apply str_contains_middle.
  - intros p i x ->. apply py_str_record.
  - intros w k req H. apply request_is_composed in H. now subst.
Qed.

Lemma with_context_user_content_witness :
  py_str advil_record
  = "{'source': 'Official US FDA Database', 'purpose': " ++ py_repr (VStr "pain reliever")
    ++ ", 'indications': " ++ py_repr (VStr "Not Listed")
    ++ ", 'warnings': " ++ py_repr (VStr "Don't exceed the dose") ++ "}".
Proof.
  apply (proj1 (proj2 (proj2 (with_context_user_content "Explain Advil" advil_record)))
           (VStr "pain reliever") (VStr "Not Listed") (VStr "Don't exceed the dose")).
  reflexivity.
Defined.

(** Scenario 2 of the spec: Advil found with purpose "pain reliever". *)
Example advil_scenario :
  completion_requests
    (trace (world_replying 200 advil_payload)
       (get_medicine_details (VStr "gsk_key") "Advil"))
  = [{| system_text := with_context_text;
        input_text :=
          "Official Data: {'source': 'Official US FDA Database', 'purpose': 'pain reliever', 'indications': 'Not Listed', 'warnings': "
          ++ dq ++ "Don't exceed the dose" ++ dq ++ "}" ++ nl ++ nl
          ++ "User Question: Explain Advil" |}].
Proof. reflexivity. Qed.

Lemma requests_get_medicine_details (w : world) (api_key : value) (drug_name : string) :
  drug_name <> EmptyString ->
  let real_data := lookup_result (http w (fda_url drug_name)) in
  completion_requests (trace w (get_medicine_details api_key drug_name)) =
  if truthy real_data
  then completion_requests
         (trace w (get_ai_response api_key ("Explain " ++ drug_name) real_data
                     "drug_with_context"))
  else completion_requests
         (trace w (get_ai_response api_key drug_name VNone "drug_no_context")).
Proof.
  intros N. cbv zeta. unfold trace at 1.
  rewrite (run_get_medicine_details w api_key drug_name N). simpl.
  destruct (truthy (lookup_result (http w (fda_url drug_name)))).
  - apply requests_medicine_found.
  - apply requests_medicine_not_found.
Qed.

(** C7: in mode [drug_no_context] the user content is exactly
    ["Explain the medicine: "] followed by the drug name; and when the lookup
    of a drug name returns [None], every request the medicine tab sends has
    that content and the fallback instruction, and with a key set and a
    client built that request is sent, once. *)
Theorem no_context_user_content (w : world) (api_key : value) (D : string) :
  D <> EmptyString ->
  outcome w (get_fda_drug_info D) = inr VNone ->
  (forall R, input_text (compose D R "drug_no_context") = "Explain the medicine: " ++ D)
  /\ (forall req,
        In req (completion_requests (trace w (get_medicine_details api_key D))) ->
        input_text req = "Explain the medicine: " ++ D
        /\ system_text req = no_context_text)
  /\ (truthy api_key = true ->
      groq_client w 0 api_key model_name = inr tt ->
      completion_requests (trace w (get_medicine_details api_key D))
      = [{| system_text := no_context_text;
            input_text := "Explain the medicine: " ++ D |}]).
Proof.
  intros N E. unfold outcome in E. rewrite run_get_fda_drug_info in E.
  injection E as E.
  rewrite (requests_get_medicine_details w api_key D N). cbv zeta. rewrite E.
  simpl truthy. cbv iota.
  repeat split.
  - apply request_is_composed in H. now subst.
  - apply request_is_composed in H. now subst.
  - intros K C. now rewrite (requests_sent w api_key D VNone "drug_no_context" K C).
Qed.

Lemma no_context_user_content_witness :
  completion_requests
    (trace (world_replying 404 not_found_payload)
       (get_medicine_details (VStr "gsk_key") "Dolo 650"))
  = [{| system_text := no_context_text;
        input_text := "Explain the medicine: " ++ "Dolo 650" |}].
Proof.
  refine (proj2 (proj2 (no_context_user_content (world_replying 404 not_found_payload)
                          (VStr "gsk_key") "Dolo 650" _ _)) _ _).
  - discriminate.
  - reflexivity.
  - reflexivity.
  - reflexivity.
Defined.

(** C9: the dispatch on [mode] has a default branch: for every mode other
    than the two drug modes (a misspelling, a fourth mode) the composition is
    the triage instruction with the raw query as user content, and
    [get_ai_response] is the same program as in mode [symptom]: it neither
    raises nor rejects the mode. *)
Theorem unknown_mode_defaults_to_triage (mode Q : string) (R : value) :
  mode <> "drug_with_context" ->
  mode <> "drug_no_context" ->
  compose Q R mode = {| system_text := triage_text; input_text := Q |}
  /\ compose Q R mode = compose Q VNone "symptom"
  /\ forall api_key,
       get_ai_response api_key Q R mode = get_ai_response api_key Q VNone "symptom".
Proof.
  intros N1 N2.
  assert (E : compose Q R mode = {| system_text := triage_text; input_text := Q |}).
  { unfold compose.
    destruct (String.eqb_spec mode "drug_with_context"); [contradiction |].
    destruct (String.eqb_spec mode "drug_no_context"); [contradiction |].
    reflexivity. }
  repeat split.
  - exact E.
  - now rewrite E.
  - intros k. unfold get_ai_response. now rewrite E.
Qed.

Lemma unknown_mode_defaults_to_triage_witness :
  compose "Explain Advil" advil_record "drug_with_contxt"
  = {| system_text := triage_text; input_text := "Explain Advil" |}.
Proof.
  apply (proj1 (unknown_mode_defaults_to_triage "drug_with_contxt" "Explain Advil"
                  advil_record ltac:(discriminate) ltac:(discriminate))).
Defined.

(* ------------------------------------------------------------------ *)
(** ** The emergency links *)

(** C8, as stated, at the empty city name: no link is produced. *)
Lemma emergency_links_empty_city :
  shown_links (trace world_offline (emergency_links EmptyString)) = []
  /\ shown_links (trace world_offline (emergency_links EmptyString))
     <> [hospital_link EmptyString; ambulance_link EmptyString].
Proof. split; [reflexivity | discriminate]. Qed.

(** C8, amended: the emergency links are string formatting only.  For every
    city name that is not empty, exactly two URLs are produced, the city name
    appended to the hospital search template and to the ambulance search
    template; for the empty city name nothing is produced.  In both cases the
    only calls are widget calls (no HTTP request, no completion client, no
    completion request), the run does not depend on the world, and nothing
    is raised. *)
Theorem emergency_links_formatting (w : world) (user_city : string) :
  shown_links (trace w (emergency_links user_city))
  = (if String.eqb user_city EmptyString then []
     else ["https://www.google.com/maps/search/hospitals+near+" ++ user_city;
           "https://www.google.com/maps/search/ambulance+service+near+" ++ user_city])
  /\ forallb is_widget (trace w (emergency_links user_city)) = true
  /\ existsb is_network (trace w (emergency_links user_city)) = false
  /\ outcome w (emergency_links user_city) = inr tt
  /\ forall w', run w' (emergency_links user_city) = run w (emergency_links user_city).
Proof.
  unfold emergency_links. simpl truthy.
  destruct (String.eqb user_city EmptyString); repeat split.
Qed.

(* ------------------------------------------------------------------ *)
(** ** More on the drug lookup *)

Lemma length_append (a b : string) :
  String.length (a ++ b) = (String.length a + String.length b)%nat.
Proof. induction a as [| c a IH]; simpl; [reflexivity | now rewrite IH]. Qed.

Lemma append_cancel_r (s x y : string) : x ++ s = y ++ s -> x = y.
Proof.
  revert y. induction x as [| c x IH]; intros [| c' y] H; simpl in H.
  - reflexivity.
  - apply (f_equal String.length) in H. simpl in H. rewrite length_append in H. lia.
  - apply (f_equal String.length) in H. simpl in H. rewrite length_append in H. lia.
  - injection H as -> H. f_equal. now apply IH.
Qed.

(** X1: one call of [get_fda_drug_info] makes exactly one call to the
    outside, the GET of the label endpoint with the brand-name query and
    [limit=1], whatever the reply: no retry after a failure, no second
    request. *)
Theorem lookup_single_get (w : world) (drug_name : string) :
  trace w (get_fda_drug_info drug_name)
  = [Get ("https://api.fda.gov/drug/label.json?search=openfda.brand_name:"
          ++ dq ++ drug_name ++ dq ++ "&limit=1")].
Proof. unfold trace. now rewrite run_get_fda_drug_info. Qed.

(** X2: the drug name is put into the URL as it is, and the URL determines
    it: two names are looked up at the same URL only when they are equal. *)
Theorem fda_url_injective (w : world) (d1 d2 : string) :
  trace w (get_fda_drug_info d1) = trace w (get_fda_drug_info d2) ->
  d1 = d2.
Proof.
  unfold trace. rewrite !run_get_fda_drug_info. simpl fst. intros [= H].
  now apply append_cancel_r in H.
Qed.

Lemma fda_url_injective_witness : "Advil" = "Advil".
Proof. apply (fda_url_injective world_offline "Advil" "Advil"). reflexivity. Defined.

(** X3: whatever the reply, well-formed or not, the lookup returns [None] or
    a dict with exactly the keys [source], [purpose], [indications],
    [warnings], in this order, whose [source] is the constant label and whose
    [warnings] has a length of at most 1000. *)
Theorem lookup_None_or_record (w : world) (drug_name : string) :
  outcome w (get_fda_drug_info drug_name) = inr VNone
  \/ exists purpose indications warnings n,
       outcome w (get_fda_drug_info drug_name)
       = inr (VDict [("source", VStr "Official US FDA Database");
                     ("purpose", purpose);
                     ("indications", indications);
                     ("warnings", warnings)])
       /\ py_len warnings = Some n /\ (n <= 1000)%nat.
Proof.
  unfold outcome. rewrite run_get_fda_drug_info. simpl snd.
  destruct (lookup_result_shape (http w (fda_url drug_name))) as [-> | S].
  - now left.
  - right. destruct S as (p & i & x & n & -> & L & B). now exists p, i, x, n.
Qed.

Lemma record_of_is_record (fields : list (string * value)) (r : value) :
  record_of fields = inr r -> is_record r.
Proof.
  unfold record_of. split_binds; try discriminate. intros [= <-].
  match goal with H : slice_to _ _ = inr _ |- _ =>
    destruct (slice_to_len _ _ _ H) as (m & Hm & Hle) end.
  now repeat eexists; eauto.
Qed.

(** A lookup that finds something got an object without [error] member whose
    [results] is a list that starts with an object. *)
Lemma found_has_first_result (r : py Response) :
  lookup_result r <> VNone ->
  exists fields, first_result r = Some fields /\ has_error_field r = false.
Proof.
  unfold lookup_result, first_result, has_error_field.
  destruct r as [e | resp]; simpl; [intros N; now elim N |].
  destruct (json resp) as [e | data]; simpl; [intros N; now elim N |].
  unfold read_label.
  destruct data as [| | | | hay | items | top]; simpl;
    try (intros N; now elim N).
  - destruct (str_contains "error" hay); simpl; intros N; now elim N.
  - destruct (existsb (is_str "error") items); simpl; intros N; now elim N.
  - destruct (dict_lookup "error" top); simpl; [intros N; now elim N |].
    destruct (dict_lookup "results" top) as [v |]; simpl; [| intros N; now elim N].
    destruct v as [| | | | s | [| x xs] |]; simpl; try (intros N; now elim N).
    + destruct (String.get 0 s); simpl; intros N; now elim N.
    + destruct x; simpl; try (intros N; now elim N).
      intros _. now eexists.
Qed.

Lemma found_record_of (r : py Response) (fields : list (string * value)) (v : value) :
  first_result r = Some fields ->
  lookup_result r = v ->
  v <> VNone ->
  has_error_field r = false /\ record_of fields = inr v.
Proof.
  intros F E N. rewrite <- E in N.
  destruct (found_has_first_result _ N) as (fields' & F' & H).
  rewrite F in F'. injection F' as <-. split; [exact H |].
  rewrite (lookup_result_first _ _ F), H in E, N.
  destruct (record_of fields) as [e | x]; [now elim N | now subst].
Qed.

Lemma outcome_get_fda_drug_info (w : world) (drug_name : string) (r : value) :
  outcome w (get_fda_drug_info drug_name) = inr r ->
  lookup_result (http w (fda_url drug_name)) = r.
Proof.
  unfold outcome. rewrite run_get_fda_drug_info. simpl. now intros [= E].
Qed.

(** X4: the lookup finds a record exactly when the payload is an object
    without [error] member whose [results] is a list that starts with an
    object, and the three fields of that object can each be indexed at 0
    (the [warnings] one sliced as well); the record is then the one built
    from that first entry. *)
Theorem lookup_found_iff (w : world) (drug_name : string) (r : value) :
  (outcome w (get_fda_drug_info drug_name) = inr r /\ r <> VNone)
  <->
  (exists fields,
     first_result (http w (fda_url drug_name)) = Some fields
     /\ has_error_field (http w (fda_url drug_name)) = false
     /\ record_of fields = inr r).
Proof.
  unfold outcome. rewrite run_get_fda_drug_info. simpl snd. split.
  - intros [[= E] N]. rewrite <- E in N.
    destruct (found_has_first_result _ N) as (fields & F & H).
    exists fields. repeat split; [exact F | exact H |].
    rewrite (lookup_result_first _ _ F), H in E, N.
    destruct (record_of fields) as [e | v]; [now elim N | now subst].
  - intros (fields & F & H & R).
    rewrite (lookup_result_first _ _ F), H, R. split; [reflexivity |].
    apply is_record_not_None. now apply record_of_is_record in R.
Qed.

Lemma lookup_found_iff_witness :
  outcome (world_replying 200 advil_payload) (get_fda_drug_info "Advil")
  = inr advil_record
  /\ advil_record <> VNone.
Proof.
  apply (proj2 (lookup_found_iff (world_replying 200 advil_payload) "Advil"
                  advil_record)).
  exists [("purpose", VList [VStr "pain reliever"; VStr "fever reducer"]);
          ("warnings", VList [VStr "Don't exceed the dose"])].
  repeat split.
Defined.

(** X5: a payload that is not a JSON object (an array, a string, a number,
    a boolean, null) is a failed lookup: the function returns [None]. *)
Theorem non_object_payload_is_not_found (w : world) (drug_name : string)
    (response : Response) (data : value) :
  http w (fda_url drug_name) = inr response ->
  json response = inr data ->
  (forall items, data <> VDict items) ->
  outcome w (get_fda_drug_info drug_name) = inr VNone.
Proof.
  intros H J D. unfold outcome. rewrite run_get_fda_drug_info. simpl snd. f_equal.
  destruct (lookup_result (http w (fda_url drug_name))) eqn:E; try reflexivity.
  all: exfalso;
    assert (N : lookup_result (http w (fda_url drug_name)) <> VNone)
      by (rewrite E; discriminate);
    destruct (found_has_first_result _ N) as (fields & F & _);
    unfold first_result in F; rewrite H, J in F;
    destruct data as [| | | | | | top]; try discriminate; now elim (D top).
Qed.

Lemma non_object_payload_is_not_found_witness :
  outcome (world_replying 200 array_payload) (get_fda_drug_info "Advil") = inr VNone.
Proof.
  refine (non_object_payload_is_not_found (world_replying 200 array_payload) "Advil"
            {| status_code := 200; json := inr array_payload |} array_payload
            eq_refl eq_refl _).
  intros items. discriminate.
Defined.

(** X6: the fields of the first result are indexed, not checked to be
    arrays: when a field holds a JSON string instead of an array of strings,
    a successful lookup puts only the first character of that string in the
    record. *)
Theorem string_field_gives_first_character (w : world) (drug_name : string)
    (fields : list (string * value)) (r : value) :
  first_result (http w (fda_url drug_name)) = Some fields ->
  outcome w (get_fda_drug_info drug_name) = inr r ->
  r <> VNone ->
  (forall c rest, dict_lookup "purpose" fields = Some (VStr (String c rest)) ->
                  getitem_str r "purpose" = inr (VStr (String c EmptyString)))
  /\ (forall c rest,
        dict_lookup "indications_and_usage" fields = Some (VStr (String c rest)) ->
        getitem_str r "indications" = inr (VStr (String c EmptyString)))
  /\ (forall c rest, dict_lookup "warnings" fields = Some (VStr (String c rest)) ->
                     getitem_str r "warnings" = inr (VStr (String c EmptyString))).
Proof.
  intros F E N.
  assert (R : record_of fields = inr r).
  { apply outcome_get_fda_drug_info in E. now apply (found_record_of _ _ _ F E N). }
  clear F E N. unfold record_of in R. rewrite !first_of_cases in R.
  repeat split; intros c rest L; rewrite L in R; simpl in R;
    revert R; split_binds; try discriminate; intros [= <-]; try reflexivity.
  all: match goal with H : slice_to _ _ = inr _ |- _ =>
         simpl in H; now injection H as <- end.
Qed.

Lemma string_field_gives_first_character_witness :
  getitem_str
    (VDict [("source", VStr "Official US FDA Database");
            ("purpose", VStr "p");
            ("indications", VStr "Not Listed");
            ("warnings", VStr "Not Listed")])
    "purpose"
  = inr (VStr "p").
Proof.
  refine (proj1 (string_field_gives_first_character
                   (world_replying 200 string_purpose_payload) "Advil"
                   [("purpose", VStr "pain reliever")] _ _ _ _)
            "p"%char "ain reliever" _).
  - reflexivity.
  - reflexivity.
  - discriminate.
  - reflexivity.
Defined.

Lemma substring_0_all (n : nat) (s : string) :
  (String.length s <= n)%nat -> substring 0 n s = s.
Proof.
  revert s. induction n as [| n IH]; intros [| c s] L; simpl in *;
    try reflexivity; try lia.
  f_equal. apply IH. lia.
Qed.

(** X7: the cut of [warnings] loses nothing of a short text: when the first
    warning of the first result is a string, a successful lookup returns it
    whole if it has at most 1000 characters, and exactly its first 1000
    characters if it has more, whatever the other fields hold. *)
Theorem warnings_cut (w : world) (drug_name : string)
    (fields : list (string * value)) (text : string) (rest : list value) (r : value) :
  first_result (http w (fda_url drug_name)) = Some fields ->
  dict_lookup "warnings" fields = Some (VList (VStr text :: rest)) ->
  outcome w (get_fda_drug_info drug_name) = inr r ->
  r <> VNone ->
  getitem_str r "warnings" = inr (VStr (substring 0 1000 text))
  /\ ((String.length text <= 1000)%nat -> getitem_str r "warnings" = inr (VStr text))
  /\ ((1000 <= String.length text)%nat ->
      String.length (substring 0 1000 text) = 1000%nat).
Proof.
  intros F L E N.
  assert (R : record_of fields = inr r).
  { apply outcome_get_fda_drug_info in E. now apply (found_record_of _ _ _ F E N). }
  clear F E N. unfold record_of in R. rewrite !first_of_cases in R.
  rewrite L in R.
  assert (G : getitem_str r "warnings" = inr (VStr (substring 0 1000 text))).
  { destruct (match dict_lookup "purpose" fields with
              | Some xs => getitem_int xs 0
              | None => inr (VStr "Not Listed")
              end) as [e | p]; simpl in R; [discriminate R |].
    destruct (match dict_lookup "indications_and_usage" fields with
              | Some xs => getitem_int xs 0
              | None => inr (VStr "Not Listed")
              end) as [e | i]; simpl in R; [discriminate R |].
    now injection R as <-. }
  repeat split.
  - exact G.
  - intros B. now rewrite G, substring_0_all.
  - intros B. rewrite length_substring_0. lia.
Qed.

Lemma warnings_cut_witness :
  getitem_str advil_record "warnings" = inr (VStr "Don't exceed the dose").
Proof.
  refine (proj1 (proj2 (warnings_cut (world_replying 200 advil_payload) "Advil"
                          [("purpose", VList [VStr "pain reliever"; VStr "fever reducer"]);
                           ("warnings", VList [VStr "Don't exceed the dose"])]
                          "Don't exceed the dose" [] advil_record _ _ _ _)) _).
  - reflexivity.
  - reflexivity.
  - reflexivity.
  - discriminate.
  - simpl. lia.
Defined.

(* ------------------------------------------------------------------ *)
(** ** More on the completion call *)

(** X8: with a key set, when building the client raises, [get_ai_response]
    raises the same exception: nothing caught it, and no request has been
    sent to the completion service. *)
Theorem client_failure_propagates (w : world) (api_key : value) (user_query : string)
    (context_data : value) (mode : string) (e : exn) :
  truthy api_key = true ->
  groq_client w 0 api_key "llama-3.3-70b-versatile" = inl e ->
  run w (get_ai_response api_key user_query context_data mode)
  = ([NewChatGroq 0 api_key "llama-3.3-70b-versatile"], inl e).
Proof.
  intros K C. rewrite run_get_ai_response, K. unfold model_name. now rewrite C.
Qed.

Lemma client_failure_propagates_witness :
  run world_client_failing
    (get_ai_response (VStr "gsk_key") "fever" VNone "symptom")
  = ([NewChatGroq 0 (VStr "gsk_key") "llama-3.3-70b-versatile"],
     inl (OtherError "ValidationError")).
Proof.
  apply (client_failure_propagates world_client_failing (VStr "gsk_key") "fever"
           VNone "symptom" (OtherError "ValidationError")); reflexivity.
Defined.

(** X9: with a key set and the client built, [get_ai_response] builds the
    client once (temperature 0, the key, the fixed model name), sends exactly
    one request, the composed one, and its outcome is the outcome of that
    request as it is: the text of the reply unchanged, or the exception the
    service raised, which is not caught. *)
Theorem completion_outcome_verbatim (w : world) (api_key : value)
    (user_query : string) (context_data : value) (mode : string) :
  truthy api_key = true ->
  groq_client w 0 api_key "llama-3.3-70b-versatile" = inr tt ->
  let request := compose user_query context_data mode in
  run w (get_ai_response api_key user_query context_data mode)
  = ([NewChatGroq 0 api_key "llama-3.3-70b-versatile";
      Invoke (system_text request) (input_text request)],
     groq_chat w (system_text request) (input_text request)).
Proof.
  intros K C. cbv zeta. rewrite run_get_ai_response, K. unfold model_name.
  now rewrite C.
Qed.

Lemma completion_outcome_verbatim_witness :
  run (world_chat_failing advil_payload)
    (get_ai_response (VStr "gsk_key") "Dolo 650" VNone "drug_no_context")
  = ([NewChatGroq 0 (VStr "gsk_key") "llama-3.3-70b-versatile";
      Invoke no_context_text "Explain the medicine: Dolo 650"],
     inl (OtherError "RateLimitError")).
Proof.
  apply (completion_outcome_verbatim (world_chat_failing advil_payload)
           (VStr "gsk_key") "Dolo 650" VNone "drug_no_context"); reflexivity.
Defined.

(** X10: the record is read in mode [drug_with_context] only: in every other
    mode a record passed as [context_data] is dropped without notice, the
    composed request and the whole call being the same as without it. *)
Theorem context_ignored_in_other_modes (mode Q : string) (R R' : value) :
  mode <> "drug_with_context" ->
  compose Q R mode = compose Q R' mode
  /\ forall api_key,
       get_ai_response api_key Q R mode = get_ai_response api_key Q R' mode.
Proof.
  intros N.
  assert (E : compose Q R mode = compose Q R' mode).
  { unfold compose.
    destruct (String.eqb_spec mode "drug_with_context"); [contradiction | reflexivity]. }
  split; [exact E |]. intros k. unfold get_ai_response. now rewrite E.
Qed.

Lemma context_ignored_in_other_modes_witness :
  compose "Dolo 650" advil_record "drug_no_context"
  = compose "Dolo 650" VNone "drug_no_context".
Proof.
  apply (proj1 (context_ignored_in_other_modes "drug_no_context" "Dolo 650"
                  advil_record VNone ltac:(discriminate))).
Defined.

Lemma append_empty_r (s : string) : s ++ EmptyString = s.
Proof. induction s as [| c s IH]; simpl; [reflexivity | now rewrite IH]. Qed.

(** X11: in every mode the user content ends with the query exactly as it
    was passed (not trimmed, cut or escaped), after a lead that depends on
    the mode and the record only. *)
Theorem query_passed_verbatim (Q : string) (R : value) (mode : string) :
  input_text (compose Q R mode) = input_text (compose EmptyString R mode) ++ Q.
Proof.
  unfold compose.
  destruct (String.eqb mode "drug_with_context");
    [| destruct (String.eqb mode "drug_no_context")]; cbn [input_text].
  - now rewrite append_empty_r, !append_assoc.
  - reflexivity.
  - reflexivity.
Qed.






(* ------------------------------------------------------------------ *)
(** ** The pages of the tabs *)

Lemma run_medicine_found (w : world) (api_key : value) (drug_name : string)
    (real_data : value) :
  run w (medicine_found api_key drug_name real_data) =
  match run w (get_ai_response api_key ("Explain " ++ drug_name) real_data
                 "drug_with_context") with
  | (t, inl e) => (St success_found_in_fda :: t, inl e)
  | (t, inr explanation) =>
      (St success_found_in_fda
         :: (t ++ [St (write explanation);
                   St (expander_json "View Technical Data" real_data)])%list,
       inr tt)
  end.
Proof.
  unfold medicine_found. rewrite run_bind, run_st. cbn [fst snd app].
  rewrite run_bind.
  destruct (run w (get_ai_response _ _ _ _)) as [t [e | x]]; reflexivity.
Qed.

Lemma run_medicine_not_found (w : world) (api_key : value) (drug_name : string) :
  run w (medicine_not_found api_key drug_name) =
  match run w (get_ai_response api_key drug_name VNone "drug_no_context") with
  | (t, inl e) => (St info_not_in_us_database :: t, inl e)
  | (t, inr explanation) =>
      (St info_not_in_us_database :: (t ++ [St (write explanation)])%list, inr tt)
  end.
Proof.
  unfold medicine_not_found. rewrite run_bind, run_st. cbn [fst snd app].
  rewrite run_bind.
  destruct (run w (get_ai_response _ _ _ _)) as [t [e | x]]; reflexivity.
Qed.

Lemma run_medicine_arm (w : world) (api_key : value) (drug_name : string)
    (real_data : value) :
  drug_name <> EmptyString ->
  outcome w (get_fda_drug_info drug_name) = inr real_data ->
  run w (get_medicine_details api_key drug_name) =
  let arm := match real_data with
             | VNone => medicine_not_found api_key drug_name
             | _ => medicine_found api_key drug_name real_data
             end in
  (St (spinner ("Searching information for " ++ drug_name ++ "..."))
     :: Get (fda_url drug_name) :: trace w arm,
   outcome w arm).
Proof.
  intros N E. apply outcome_get_fda_drug_info in E.
  rewrite (run_get_medicine_details w api_key drug_name N). cbv zeta.
  assert (S := lookup_result_shape (http w (fda_url drug_name))).
  rewrite E in *. destruct S as [-> | S].
  - reflexivity.
  - rewrite (is_record_truthy _ S).
    destruct S as (p & i & x & n & -> & _). reflexivity.
Qed.

(* ------------------------------------------------------------------ *)
(** ** The router *)

(** C1: with a drug name typed in, the medicine tab makes its one completion
    call in the arm the lookup decides.  When the lookup returns a record,
    the tab shows the success notice and never the fallback notice; every
    request that reaches the completion service is the one of mode
    [drug_with_context], whose user content carries the serialized record,
    never the one of mode [drug_no_context]; and with a key set and the
    client built that request is sent, once.  When the lookup returns
    [None], the tab shows the fallback notice and never the success notice;
    every request is the one of mode [drug_no_context], without a record;
    and with a key set and the client built that request is sent, once.  In
    no case is more than one request sent. *)
Theorem router_tie_break (w : world) (api_key : value) (drug_name : string)
    (real_data : value) :
  drug_name <> EmptyString ->
  outcome w (get_fda_drug_info drug_name) = inr real_data ->
  let flow := get_medicine_details api_key drug_name in
  let with_context :=
    {| system_text := with_context_text;
       input_text := "Official Data: " ++ py_str real_data ++ nl ++ nl
                     ++ "User Question: " ++ "Explain " ++ drug_name |} in
  let no_context :=
    {| system_text := no_context_text;
       input_text := "Explain the medicine: " ++ drug_name |} in
  (real_data <> VNone ->
     (exists rest,
        trace w flow
        = St (spinner ("Searching information for " ++ drug_name ++ "..."))
            :: Get (fda_url drug_name) :: St success_found_in_fda :: rest
        /\ ~ In (St info_not_in_us_database) rest)
     /\ (forall req, In req (completion_requests (trace w flow)) ->
           req = with_context /\ req <> no_context)
     /\ (truthy api_key = true ->
         groq_client w 0 api_key "llama-3.3-70b-versatile" = inr tt ->
         completion_requests (trace w flow) = [with_context]))
  /\
  (real_data = VNone ->
     (exists rest,
        trace w flow
        = St (spinner ("Searching information for " ++ drug_name ++ "..."))
            :: Get (fda_url drug_name) :: St info_not_in_us_database :: rest
        /\ ~ In (St success_found_in_fda) rest)
     /\ (forall req, In req (completion_requests (trace w flow)) ->
           req = no_context /\ req <> with_context)
     /\ (truthy api_key = true ->
         groq_client w 0 api_key "llama-3.3-70b-versatile" = inr tt ->
         completion_requests (trace w flow) = [no_context]))
  /\
  (List.length (completion_requests (trace w flow)) <= 1)%nat.
Proof.
  intros N E flow with_context no_context.
  assert (D : with_context <> no_context).
  { intros H. apply (f_equal system_text) in H. exact (proj1 templates_distinct H). }
  assert (S : real_data = VNone \/ is_record real_data).
  { rewrite <- (outcome_get_fda_drug_info _ _ _ E). apply lookup_result_shape. }
  subst flow. unfold trace.
  rewrite (run_medicine_arm w api_key drug_name real_data N E). cbv zeta.
  unfold trace, outcome. cbn [fst].
  destruct S as [-> | S].
  - rewrite run_medicine_not_found, run_get_ai_response. unfold model_name.
    change (system_text (compose drug_name VNone "drug_no_context"))
      with no_context_text.
    change (input_text (compose drug_name VNone "drug_no_context"))
      with ("Explain the medicine: " ++ drug_name).
    fold no_context.
    split; [intros C; now elim C |].
    destruct (truthy api_key);
      [destruct (groq_client w 0 api_key "llama-3.3-70b-versatile") as [e | []];
       [| destruct (groq_chat w no_context_text ("Explain the medicine: " ++ drug_name))] |];
      cbn [fst app completion_requests List.length].
    all: split; [| lia].
    all: intros _; split; [| split].
    all: first
      [ solve [eexists; split; [reflexivity | cbn [In]; intuition discriminate]]
      | solve [intros K C; first [discriminate K | discriminate C | reflexivity]]
      | solve [intros req [<- | []]; split; [reflexivity | intros H; now apply D]]
      | solve [intros req []] ].
  - assert (T := is_record_truthy _ S). assert (F := is_record_not_None _ S).
    assert (A : (match real_data with
                 | VNone => medicine_not_found api_key drug_name
                 | _ => medicine_found api_key drug_name real_data
                 end) = medicine_found api_key drug_name real_data).
    { destruct real_data; try reflexivity. now elim F. }
    rewrite A, run_medicine_found, run_get_ai_response. unfold model_name.
    change (system_text (compose ("Explain " ++ drug_name) real_data
                           "drug_with_context")) with with_context_text.
    change (input_text (compose ("Explain " ++ drug_name) real_data
                          "drug_with_context"))
      with ("Official Data: " ++ py_str real_data ++ nl ++ nl
            ++ "User Question: " ++ "Explain " ++ drug_name).
    split; [| split; [intros C; now elim F |]].
    + intros _.
      destruct (truthy api_key);
        [destruct (groq_client w 0 api_key "llama-3.3-70b-versatile") as [e | []];
         [| destruct (groq_chat w with_context_text _)] |];
        cbn [fst app completion_requests List.length].
      all: split; [| split].
      all: first
        [ solve [eexists; split; [reflexivity | cbn [In]; intuition discriminate]]
        | solve [intros K C; first [discriminate K | discriminate C | reflexivity]]
        | solve [intros req [<- | []]; split; [reflexivity | exact D]]
        | solve [intros req []] ].
    + destruct (truthy api_key);
        [destruct (groq_client w 0 api_key "llama-3.3-70b-versatile") as [e | []];
         [| destruct (groq_chat w with_context_text _)] |];
        cbn [fst app completion_requests List.length]; lia.
Qed.

Lemma router_tie_break_witness :
  completion_requests
    (trace (world_replying 200 advil_payload)
       (get_medicine_details (VStr "gsk_key") "Advil"))
  = [{| system_text := with_context_text;
        input_text := "Official Data: " ++ py_str advil_record ++ nl ++ nl
                      ++ "User Question: " ++ "Explain " ++ "Advil" |}]
  /\
  completion_requests
    (trace (world_replying 404 not_found_payload)
       (get_medicine_details (VStr "gsk_key") "Dolo 650"))
  = [{| system_text := no_context_text;
        input_text := "Explain the medicine: " ++ "Dolo 650" |}].
Proof.
  split.
  - refine (proj2 (proj2 (proj1 (router_tie_break (world_replying 200 advil_payload)
                                   (VStr "gsk_key") "Advil" advil_record _ _) _))
              _ _).
    + discriminate.
    + reflexivity.
    + discriminate.
    + reflexivity.
    + reflexivity.
  - refine (proj2 (proj2 (proj1 (proj2 (router_tie_break
                                          (world_replying 404 not_found_payload)
                                          (VStr "gsk_key") "Dolo 650" VNone _ _)) _))
              _ _).
    + discriminate.
    + reflexivity.
    + reflexivity.
    + reflexivity.
    + reflexivity.
Defined.

(** X13: with no medicine name typed in, the button does nothing at all: no
    lookup, no completion call, nothing written to the page, whatever the
    key. *)
Theorem empty_name_does_nothing (w : world) (api_key : value) :
  run w (get_medicine_details api_key EmptyString) = ([], inr tt).
Proof. reflexivity. Qed.

Lemma http_requests_get_ai_response (w : world) (api_key : value)
    (user_query : string) (context_data : value) (mode : string) :
  http_requests (trace w (get_ai_response api_key user_query context_data mode)) = [].
Proof.
  unfold trace. rewrite run_get_ai_response.
  destruct (truthy api_key); [| reflexivity].
  now destruct (groq_client w 0 api_key model_name).
Qed.

Lemma http_requests_app (t t' : list call) :
  http_requests (t ++ t')%list = (http_requests t ++ http_requests t')%list.
Proof.
  induction t as [| c t IH]; simpl; [reflexivity |].
  destruct c; simpl; now rewrite ?IH.
Qed.

Lemma http_requests_arm (w : world) (api_key : value) (drug_name : string)
    (real_data : value) :
  http_requests
    (trace w (if truthy real_data
              then medicine_found api_key drug_name real_data
              else medicine_not_found api_key drug_name)) = [].
Proof.
  unfold trace. destruct (truthy real_data).
  - rewrite run_medicine_found.
    assert (H := http_requests_get_ai_response w api_key ("Explain " ++ drug_name)
                   real_data "drug_with_context").
    unfold trace in H.
    destruct (run w (get_ai_response _ _ _ _)) as [t [e | x]]; simpl in *;
      [exact H |]. now rewrite http_requests_app, H.
  - rewrite run_medicine_not_found.
    assert (H := http_requests_get_ai_response w api_key drug_name VNone
                   "drug_no_context").
    unfold trace in H.
    destruct (run w (get_ai_response _ _ _ _)) as [t [e | x]]; simpl in *;
      [exact H |]. now rewrite http_requests_app, H.
Qed.

(** X14: a press of the medicine button with a name typed in makes exactly
    one HTTP request, the lookup of that name, and makes it first, right
    after the spinner and before any completion client is built or any
    completion request sent; with no name there is no HTTP request. *)
Theorem lookup_comes_first (w : world) (api_key : value) (drug_name : string) :
  http_requests (trace w (get_medicine_details api_key drug_name))
  = (if String.eqb drug_name EmptyString then [] else [fda_url drug_name])
  /\ (drug_name <> EmptyString ->
      exists rest,
        trace w (get_medicine_details api_key drug_name)
        = St (spinner ("Searching information for " ++ drug_name ++ "..."))
            :: Get (fda_url drug_name) :: rest
        /\ http_requests rest = []).
Proof.
  split.
  - destruct (String.eqb_spec drug_name EmptyString) as [-> | N]; [reflexivity |].
    unfold trace at 1. rewrite (run_get_medicine_details w api_key drug_name N).
    cbn [fst http_requests]. now rewrite http_requests_arm.
  - intros N. unfold trace at 1.
    rewrite (run_get_medicine_details w api_key drug_name N). cbn [fst].
    eexists. split; [reflexivity | apply http_requests_arm].
Qed.

Lemma lookup_comes_first_witness :
  exists rest,
    trace (world_replying 200 advil_payload)
      (get_medicine_details (VStr "gsk_key") "Advil")
    = St (spinner ("Searching information for " ++ "Advil" ++ "..."))
        :: Get (fda_url "Advil") :: rest
    /\ http_requests rest = [].
Proof.
  apply (proj2 (lookup_comes_first (world_replying 200 advil_payload)
                  (VStr "gsk_key") "Advil")).
  discriminate.
Defined.

(** X15: without an API key the medicine tab still looks the drug up; the
    "enter your key" message is written where the explanation would be, and
    for a drug that was found the technical data is shown all the same.  No
    completion client is built and no completion request is sent. *)
Theorem medicine_tab_without_key (w : world) (api_key : value) (drug_name : string)
    (real_data : value) :
  drug_name <> EmptyString ->
  truthy api_key = false ->
  outcome w (get_fda_drug_info drug_name) = inr real_data ->
  run w (get_medicine_details api_key drug_name) =
  (St (spinner ("Searching information for " ++ drug_name ++ "..."))
     :: Get (fda_url drug_name)
     :: match real_data with
        | VNone =>
            [St info_not_in_us_database;
             St (write "Please enter your API Key in the sidebar first!")]
        | _ =>
            [St success_found_in_fda;
             St (write "Please enter your API Key in the sidebar first!");
             St (expander_json "View Technical Data" real_data)]
        end,
   inr tt).
Proof.
  intros N K E. rewrite (run_medicine_arm w api_key drug_name real_data N E).
  cbv zeta. unfold trace, outcome.
  destruct real_data;
    rewrite ?run_medicine_found, ?run_medicine_not_found, run_get_ai_response, K;
    reflexivity.
Qed.

Lemma medicine_tab_without_key_witness :
  run (world_replying 200 advil_payload) (get_medicine_details (VStr EmptyString) "Advil")
  = ([St (spinner ("Searching information for " ++ "Advil" ++ "..."));
      Get (fda_url "Advil");
      St success_found_in_fda;
      St (write "Please enter your API Key in the sidebar first!");
      St (expander_json "View Technical Data" advil_record)],
     inr tt).
Proof.
  apply (medicine_tab_without_key (world_replying 200 advil_payload)
           (VStr EmptyString) "Advil" advil_record).
  - discriminate.
  - reflexivity.
  - reflexivity.
Defined.

(** X16: the page of a drug that was found, with a key set and the client
    built: the success notice, the one request composed from the record,
    then the reply as it came and the technical data, which is the very
    record that was sent.  When the request raises, the exception leaves the
    tab uncaught, after the success notice, and neither the explanation nor
    the technical data is shown. *)
Theorem medicine_found_page (w : world) (api_key : value) (drug_name : string)
    (real_data : value) :
  drug_name <> EmptyString ->
  truthy api_key = true ->
  groq_client w 0 api_key "llama-3.3-70b-versatile" = inr tt ->
  outcome w (get_fda_drug_info drug_name) = inr real_data ->
  real_data <> VNone ->
  let request := compose ("Explain " ++ drug_name) real_data "drug_with_context" in
  let shown := [St (spinner ("Searching information for " ++ drug_name ++ "..."));
                Get (fda_url drug_name);
                St success_found_in_fda;
                NewChatGroq 0 api_key "llama-3.3-70b-versatile";
                Invoke (system_text request) (input_text request)] in
  run w (get_medicine_details api_key drug_name) =
  match groq_chat w (system_text request) (input_text request) with
  | inr explanation =>
      ((shown ++ [St (write explanation);
                  St (expander_json "View Technical Data" real_data)])%list,
       inr tt)
  | inl e => (shown, inl e)
  end.
Proof.
  intros N K C E F. cbv zeta.
  rewrite (run_medicine_arm w api_key drug_name real_data N E). cbv zeta.
  unfold trace, outcome.
  destruct real_data; try (now elim F);
    rewrite run_medicine_found, run_get_ai_response, K; unfold model_name;
    rewrite C; cbv zeta;
    match goal with |- context [groq_chat w ?s ?u] =>
      destruct (groq_chat w s u) end; reflexivity.
Qed.

Lemma medicine_found_page_witness :
  run (world_chat_failing advil_payload) (get_medicine_details (VStr "gsk_key") "Advil")
  = ([St (spinner ("Searching information for " ++ "Advil" ++ "..."));
      Get (fda_url "Advil");
      St success_found_in_fda;
      NewChatGroq 0 (VStr "gsk_key") "llama-3.3-70b-versatile";
      Invoke (system_text (compose ("Explain " ++ "Advil") advil_record "drug_with_context"))
        (input_text (compose ("Explain " ++ "Advil") advil_record "drug_with_context"))],
     inl (OtherError "RateLimitError")).
Proof.
  apply (medicine_found_page (world_chat_failing advil_payload) (VStr "gsk_key")
           "Advil" advil_record).
  - discriminate.
  - reflexivity.
  - reflexivity.
  - reflexivity.
  - discriminate.
Defined.

(** X17: the page of a drug that was not found, with a key set and the
    client built: the fallback notice, the one request in mode
    [drug_no_context], then the reply as it came; no technical data.  When
    the request raises, the exception leaves the tab uncaught and no
    explanation is shown. *)
Theorem medicine_fallback_page (w : world) (api_key : value) (drug_name : string) :
  drug_name <> EmptyString ->
  truthy api_key = true ->
  groq_client w 0 api_key "llama-3.3-70b-versatile" = inr tt ->
  outcome w (get_fda_drug_info drug_name) = inr VNone ->
  let shown := [St (spinner ("Searching information for " ++ drug_name ++ "..."));
                Get (fda_url drug_name);
                St info_not_in_us_database;
                NewChatGroq 0 api_key "llama-3.3-70b-versatile";
                Invoke no_context_text ("Explain the medicine: " ++ drug_name)] in
  run w (get_medicine_details api_key drug_name) =
  match groq_chat w no_context_text ("Explain the medicine: " ++ drug_name) with
  | inr explanation => ((shown ++ [St (write explanation)])%list, inr tt)
  | inl e => (shown, inl e)
  end.
Proof.
  intros N K C E. cbv zeta.
  rewrite (run_medicine_arm w api_key drug_name VNone N E). cbv zeta.
  unfold trace, outcome.
  rewrite run_medicine_not_found, run_get_ai_response, K. unfold model_name.
  rewrite C. cbv zeta.
  change (system_text (compose drug_name VNone "drug_no_context"))
    with no_context_text.
  change (input_text (compose drug_name VNone "drug_no_context"))
    with ("Explain the medicine: " ++ drug_name).
  now destruct (groq_chat w no_context_text ("Explain the medicine: " ++ drug_name)).
Qed.

Lemma medicine_fallback_page_witness :
  run (world_replying 404 not_found_payload) (get_medicine_details (VStr "gsk_key") "Dolo 650")
  = ([St (spinner ("Searching information for " ++ "Dolo 650" ++ "..."));
      Get (fda_url "Dolo 650");
      St info_not_in_us_database;
      NewChatGroq 0 (VStr "gsk_key") "llama-3.3-70b-versatile";
      Invoke no_context_text ("Explain the medicine: " ++ "Dolo 650");
      St (write "Take it with food.")],
     inr tt).
Proof.
  apply (medicine_fallback_page (world_replying 404 not_found_payload)
           (VStr "gsk_key") "Dolo 650").
  - discriminate.
  - reflexivity.
  - reflexivity.
  - reflexivity.
Defined.

(** X18: with no symptoms typed in, the symptom button only asks for them:
    the one thing on the page is the warning, and there is no call to the
    completion service, whatever the age, the gender and the key. *)
Theorem symptoms_empty_warning (w : world) (api_key : value) (age : Z)
    (gender : string) :
  run w (analyze_symptoms api_key age gender EmptyString)
  = ([St (warning "Please enter symptoms.")], inr tt).
Proof. reflexivity. Qed.

Lemma run_analyze_symptoms (w : world) (api_key : value) (age : Z)
    (gender symptoms : string) :
  symptoms <> EmptyString ->
  run w (analyze_symptoms api_key age gender symptoms) =
  match run w (get_ai_response api_key
                 ("Age: " ++ repr_int age ++ ", Gender: " ++ gender
                  ++ ", Symptoms: " ++ symptoms) VNone "symptom") with
  | (t, inl e) => (St (spinner "Consulting medical guidelines...") :: t, inl e)
  | (t, inr response) =>
      (St (spinner "Consulting medical guidelines...")
         :: (t ++ [St (markdown response)])%list, inr tt)
  end.
Proof.
  intros N. unfold analyze_symptoms. rewrite (truthy_nonempty _ N).
  rewrite run_bind, run_st. cbn [fst snd app]. rewrite run_bind.
  destruct (run w (get_ai_response _ _ _ _)) as [t [e | x]]; reflexivity.
Qed.

(** X19: the page of the symptom tab, with symptoms typed in, a key set and
    the client built: one request, the triage instruction with the user
    content ["Age: <age>, Gender: <gender>, Symptoms: <symptoms>"], and the
    reply rendered as it came.  The drug lookup is never called from this
    tab.  When the request raises, the exception leaves the tab uncaught and
    nothing is rendered. *)
Theorem symptoms_page (w : world) (api_key : value) (age : Z)
    (gender symptoms : string) :
  symptoms <> EmptyString ->
  truthy api_key = true ->
  groq_client w 0 api_key "llama-3.3-70b-versatile" = inr tt ->
  let full_query := "Age: " ++ repr_int age ++ ", Gender: " ++ gender
                    ++ ", Symptoms: " ++ symptoms in
  let shown := [St (spinner "Consulting medical guidelines...");
                NewChatGroq 0 api_key "llama-3.3-70b-versatile";
                Invoke triage_text full_query] in
  run w (analyze_symptoms api_key age gender symptoms) =
  match groq_chat w triage_text full_query with
  | inr response => ((shown ++ [St (markdown response)])%list, inr tt)
  | inl e => (shown, inl e)
  end.
Proof.
  intros N K C. cbv zeta.
  rewrite (run_analyze_symptoms w api_key age gender symptoms N).
  rewrite run_get_ai_response, K. unfold model_name. rewrite C. cbv zeta.
  match goal with |- context [compose ?q VNone "symptom"] =>
    change (system_text (compose q VNone "symptom")) with triage_text;
    change (input_text (compose q VNone "symptom")) with q
  end.
  match goal with |- context [groq_chat w ?s ?u] =>
    destruct (groq_chat w s u) end; reflexivity.
Qed.

Lemma symptoms_page_witness :
  run (world_replying 200 advil_payload)
    (analyze_symptoms (VStr "gsk_key") 25 "Male" "fever and chills")
  = ([St (spinner "Consulting medical guidelines...");
      NewChatGroq 0 (VStr "gsk_key") "llama-3.3-70b-versatile";
      Invoke triage_text
        ("Age: " ++ repr_int 25 ++ ", Gender: " ++ "Male"
         ++ ", Symptoms: " ++ "fever and chills");
      St (markdown "Take it with food.")],
     inr tt).
Proof.
  apply (symptoms_page (world_replying 200 advil_payload) (VStr "gsk_key") 25
           "Male" "fever and chills").
  - discriminate.
  - reflexivity.
  - reflexivity.
Defined.

(** X20: the symptom tab never makes an HTTP request, whatever is typed and
    whatever the key; and without a key, with symptoms typed in, it renders
    the "enter your key" message in place of the analysis and makes no call
    to the completion service. *)
Theorem symptoms_tab_no_lookup (w : world) (api_key : value) (age : Z)
    (gender symptoms : string) :
  http_requests (trace w (analyze_symptoms api_key age gender symptoms)) = []
  /\ (symptoms <> EmptyString ->
      truthy api_key = false ->
      run w (analyze_symptoms api_key age gender symptoms)
      = ([St (spinner "Consulting medical guidelines...");
          St (markdown "Please enter your API Key in the sidebar first!")],
         inr tt)).
Proof.
  split.
  - destruct (String.eqb_spec symptoms EmptyString) as [-> | N]; [reflexivity |].
    unfold trace at 1. rewrite (run_analyze_symptoms w api_key age gender symptoms N).
    assert (H := http_requests_get_ai_response w api_key
                   ("Age: " ++ repr_int age ++ ", Gender: " ++ gender
                    ++ ", Symptoms: " ++ symptoms) VNone "symptom").
    unfold trace in H.
    destruct (run w (get_ai_response _ _ _ _)) as [t [e | x]]; simpl in *;
      [exact H |]. now rewrite http_requests_app, H.
  - intros N K. rewrite (run_analyze_symptoms w api_key age gender symptoms N).
    now rewrite run_get_ai_response, K.
Qed.

Lemma symptoms_tab_no_lookup_witness :
  run world_offline (analyze_symptoms VNone 25 "Male" "fever and chills")
  = ([St (spinner "Consulting medical guidelines...");
      St (markdown "Please enter your API Key in the sidebar first!")],
     inr tt).
Proof.
  apply (proj2 (symptoms_tab_no_lookup world_offline VNone 25 "Male"
                  "fever and chills")).
  - discriminate.
  - reflexivity.
Defined.

(* ------------------------------------------------------------------ *)
(** ** The API key *)

(** X21: when the secrets cannot be read (there is no secrets file), reading
    the key raises the exception of that read: the sidebar field is not
    reached and what is typed plays no part.  On secrets that were read it
    never raises: the membership test guards the subscript.  A key found in
    the secrets is taken as it is, whatever is typed; so when the secret is
    there but empty, every call of [get_ai_response] answers with the "enter
    your key" message, whatever is typed.  With no such secret the key is the
    typed text. *)
Theorem configured_secret_wins (secrets : list (string * value)) (typed : string) :
  (forall e, sidebar_api_key (inl e) typed = inl e)
  /\ (exists api_key, sidebar_api_key (inr secrets) typed = inr api_key)
  /\ (forall secret, dict_lookup "GROQ_API_KEY" secrets = Some secret ->
        sidebar_api_key (inr secrets) typed = inr secret
        /\ (truthy secret = false ->
            forall w Q R mode,
              run w (get_ai_response secret Q R mode)
              = ([], inr "Please enter your API Key in the sidebar first!")))
  /\ (dict_lookup "GROQ_API_KEY" secrets = None ->
      sidebar_api_key (inr secrets) typed = inr (VStr typed)).
Proof.
  split; [reflexivity |].
  unfold sidebar_api_key, secrets_in, secrets_getitem. simpl.
  destruct (dict_lookup "GROQ_API_KEY" secrets) as [k |]; simpl.
  - split; [now eexists |]. split; [| discriminate].
    intros secret [= <-]. split; [reflexivity |].
    intros F w Q R mode. now rewrite run_get_ai_response, F.
  - split; [now eexists |]. split; [discriminate | reflexivity].
Qed.

Lemma configured_secret_wins_witness :
  sidebar_api_key (inr [("GROQ_API_KEY", VStr EmptyString)]) "gsk_typed"
  = inr (VStr EmptyString)
  /\ run world_offline (get_ai_response (VStr EmptyString) "fever" VNone "symptom")
     = ([], inr "Please enter your API Key in the sidebar first!").
Proof.
  destruct (proj1 (proj2 (proj2 (configured_secret_wins
                                   [("GROQ_API_KEY", VStr EmptyString)] "gsk_typed")))
              (VStr EmptyString) eq_refl) as [H1 H2].
  split; [exact H1 |].
  apply (H2 eq_refl world_offline "fever" VNone "symptom").
Defined.
